(** * Manifesto question-answering backend: the output normalizer, the
      history formatter and the /query handler of [src/index.mjs]

    The source file holds two versions of the program, one after the other.
    Both are embedded: module [V1] is the first (lines 1-278), module [V2]
    the second (lines 279-519).  What the two share -- JavaScript values,
    [JSON.parse], property reads, truthiness -- is modelled once. *)

From Stdlib Require Import List Bool NArith ZArith Lia.
From Stdlib Require Import Ascii String.
Import ListNotations.

Local Open Scope string_scope.
Local Open Scope list_scope.
Local Open Scope N_scope.

(** * JavaScript strings

    A JavaScript string is a sequence of 16-bit code units.  The escape
    [\uXXXX] of a JSON text denotes one code unit, so strings are lists of
    code units rather than of bytes. *)

Definition code_unit := N.
Definition jsstring := list code_unit.

Definition cu (a : ascii) : code_unit := N_of_ascii a.

(** The code units of an ASCII literal. *)
Definition str (s : string) : jsstring := map cu (list_ascii_of_string s).

Definition QUOTE : code_unit := 34.
Definition BACKSLASH : code_unit := 92.

(** JSON texts are full of double quotes; [json_text] reads a literal in
    which every apostrophe stands for a double quote. *)
Definition json_text (s : string) : jsstring :=
  map (fun c => if c =? cu "'" then QUOTE else c) (str s).

Fixpoint jsstring_eqb (s t : jsstring) : bool :=
  match s, t with
  | [], [] => true
  | c :: s', d :: t' => (c =? d) && jsstring_eqb s' t'
  | _, _ => false
  end.

(** * JavaScript values *)

(** A number that came out of a JSON text, kept as its exact decimal
    literal: sign, digits of the integer and fraction parts read as one
    natural number, and the power of ten that scales them.  The value is
    [(-1)^neg * mant * 10^exp10].  The program never does arithmetic on a
    number: it only asks whether one is falsy. *)
Record number := mkNumber {
  num_neg : bool;
  num_mant : N;
  num_exp10 : Z
}.

(** A number is falsy when it is [+0] or [-0].  The literal denotes the
    binary64 value nearest to it (ties to even), which is zero exactly when
    the literal's magnitude is at most [2^-1075], half the smallest
    subnormal. *)
Definition number_is_zero (n : number) : bool :=
  if (0 <=? num_exp10 n)%Z then num_mant n =? 0
  else (Z.of_N (num_mant n) * 2 ^ 1075 <=? 10 ^ (- num_exp10 n))%Z.

#[local] Unset Elimination Schemes.
Inductive value :=
| JUndefined
| JNull
| JBool (b : bool)
| JNumber (n : number)
| JString (s : jsstring)
| JArray (elems : list value)
| JObject (props : list (jsstring * value)).
#[local] Set Elimination Schemes.

(** An object's own properties, in creation order.  The program reads
    properties by name and never enumerates an object itself; the builtins
    that do ([JSON.stringify], [res.json]) are left to the environment. *)
Definition properties := list (jsstring * value).

Fixpoint lookup (k : jsstring) (props : properties) : value :=
  match props with
  | [] => JUndefined
  | (k', v) :: rest => if jsstring_eqb k k' then v else lookup k rest
  end.

(** Define or overwrite a property: an existing key keeps its place. *)
Fixpoint define_property (props : properties) (k : jsstring) (v : value)
  : properties :=
  match props with
  | [] => [(k, v)]
  | (k', v') :: rest =>
      if jsstring_eqb k k' then (k, v) :: rest
      else (k', v') :: define_property rest k v
  end.

(** An object literal [{ k1: v1, ..., kn: vn }] of the source. *)
Definition object (props : list (string * value)) : value :=
  JObject (map (fun kv => (str (fst kv), snd kv)) props).

(** ** Exceptions and completions *)

Inductive exn :=
| SyntaxError                  (* thrown by JSON.parse *)
| TypeError                    (* property read on null or undefined *)
| RangeError                   (* JSON.stringify on a value nested too deep *)
| Failure (reason : jsstring). (* a collaborator's promise rejected *)

Inductive result (A : Type) :=
| Ok (a : A)
| Throw (e : exn).
Arguments Ok {A} a.
Arguments Throw {A} e.

Definition bind {A B} (r : result A) (k : A -> result B) : result B :=
  match r with
  | Ok a => k a
  | Throw e => Throw e
  end.

Notation "'let!' x ':=' r 'in' k" := (bind r (fun x => k))
  (at level 10, x name, r at level 100, k at level 200).

(** [xs.map(f)] with a callback that may throw: the first exception ends
    the loop. *)
Fixpoint array_map {A B} (f : A -> result B) (xs : list A)
  : result (list B) :=
  match xs with
  | [] => Ok []
  | x :: rest =>
      let! y := f x in
      let! ys := array_map f rest in
      Ok (y :: ys)
  end.

(** How a block of statements ends: it runs off its end, executes a
    [return], or throws. *)
Inductive completion (A : Type) :=
| Normal
| Return (a : A)
| Abrupt (e : exn).
Arguments Normal {A}.
Arguments Return {A} a.
Arguments Abrupt {A} e.

(** An expression that may throw, evaluated inside a block. *)
Definition eval {A B} (r : result A) (k : A -> completion B)
  : completion B :=
  match r with
  | Ok a => k a
  | Throw e => Abrupt e
  end.

Notation "'var!' x ':=' r 'in' k" := (eval r (fun x => k))
  (at level 10, x name, r at level 100, k at level 200).

(** [try { body } catch (error) { handler }] *)
Definition try_catch {A} (body : completion A)
    (handler : exn -> completion A) : completion A :=
  match body with
  | Abrupt e => handler e
  | c => c
  end.

(** [first; second]: the second statement runs when the first runs off its
    end. *)
Definition seq {A} (first second : completion A) : completion A :=
  match first with
  | Normal => second
  | c => c
  end.

(** The completion of a function body as seen by its caller. *)
Definition call (body : completion value) : result value :=
  match body with
  | Normal => Ok JUndefined
  | Return v => Ok v
  | Abrupt e => Throw e
  end.

(** ** Operators the program uses *)

(** [v.k] for the property names the program reads ([type],
    [ComparisonArray], [output], [role], [input]).  None of them is defined
    on a builtin prototype, so only an object's own properties can answer;
    reading a property of [null] or [undefined] throws. *)
Definition Get (v : value) (k : string) : result value :=
  match v with
  | JUndefined | JNull => Throw TypeError
  | JObject props => Ok (lookup (str k) props)
  | _ => Ok JUndefined
  end.

(** [v === "literal"] *)
Definition strict_eq_string (v : value) (s : string) : bool :=
  match v with
  | JString t => jsstring_eqb t (str s)
  | _ => false
  end.

(** Truthiness, as [if], [!] and [&&] see a value. *)
Definition ToBoolean (v : value) : bool :=
  match v with
  | JUndefined | JNull => false
  | JBool b => b
  | JNumber n => negb (number_is_zero n)
  | JString s => match s with [] => false | _ => true end
  | JArray _ | JObject _ => true
  end.

(** [Array.isArray(v)] *)
Definition isArray (v : value) : bool :=
  match v with
  | JArray _ => true
  | _ => false
  end.

(** [typeof v === "string"] *)
Definition typeof_string (v : value) : bool :=
  match v with
  | JString _ => true
  | _ => false
  end.

(** [v.length > 0].  The source evaluates it only behind
    [Array.isArray(v) &&], that is on arrays. *)
Definition length_positive (v : value) : bool :=
  match v with
  | JArray elems => match elems with [] => false | _ => true end
  | _ => false
  end.

(** [v !== null] and [Boolean(v)] on the results of the map callback. *)
Definition not_null (v : value) : bool :=
  match v with
  | JNull => false
  | _ => true
  end.

(** * JSON.parse

    The builtin is not part of the repository; it is modelled after the JSON
    grammar (ECMA-404) that defines it.  A lexer reads the text one code unit
    at a time, a pushdown recogniser assembles the tokens into a value; both
    recurse on their input, so parsing is total. *)
Module JSON.

Inductive token :=
| TLBrace | TRBrace | TLBracket | TRBracket | TColon | TComma
| TString (s : jsstring)
| TNumber (n : number)
| TTrue | TFalse | TNull.

Definition is_whitespace (c : code_unit) : bool :=
  (c =? 32) || (c =? 9) || (c =? 10) || (c =? 13).

Definition is_digit (c : code_unit) : bool :=
  (cu "0" <=? c) && (c <=? cu "9").

Definition is_lower (c : code_unit) : bool :=
  (cu "a" <=? c) && (c <=? cu "z").

(** The code units a number literal is made of. *)
Definition is_number_char (c : code_unit) : bool :=
  is_digit c || (c =? cu "-") || (c =? cu "+") || (c =? cu ".")
  || (c =? cu "e") || (c =? cu "E").

Definition hex_value (c : code_unit) : option N :=
  if is_digit c then Some (c - cu "0")
  else if (cu "a" <=? c) && (c <=? cu "f") then Some (c - cu "a" + 10)
  else if (cu "A" <=? c) && (c <=? cu "F") then Some (c - cu "A" + 10)
  else None.

(** The code unit an escape letter stands for ([\u] is handled apart). *)
Definition escape_value (c : code_unit) : option code_unit :=
  if c =? QUOTE then Some QUOTE
  else if c =? BACKSLASH then Some BACKSLASH
  else if c =? cu "/" then Some (cu "/")
  else if c =? cu "b" then Some 8
  else if c =? cu "f" then Some 12
  else if c =? cu "n" then Some 10
  else if c =? cu "r" then Some 13
  else if c =? cu "t" then Some 9
  else None.

(** ** Number literals

    An optional minus sign; an integer part that is a single 0 or a run of
    digits not starting with 0; an optional fraction, a point and at least
    one digit; an optional exponent, e or E, an optional sign and at least
    one digit. *)

Fixpoint take_digits (s : jsstring) : jsstring * jsstring :=
  match s with
  | c :: rest =>
      if is_digit c then
        let (ds, tl) := take_digits rest in (c :: ds, tl)
      else ([], s)
  | [] => ([], [])
  end.

Definition digits_value (ds : jsstring) : N :=
  fold_left (fun acc c => 10 * acc + (c - cu "0")) ds 0.

Definition take_sign (s : jsstring) : bool * jsstring :=
  match s with
  | c :: rest => if c =? cu "-" then (true, rest) else (false, s)
  | [] => (false, [])
  end.

(** The integer part: a single 0, or digits that do not start with 0. *)
Definition take_int (s : jsstring) : option (jsstring * jsstring) :=
  match take_digits s with
  | ([], _) => None
  | (d :: ds, tl) =>
      if (d =? cu "0") && negb (List.length ds =? 0)%nat then None
      else Some (d :: ds, tl)
  end.

Definition take_frac (s : jsstring) : option (jsstring * jsstring) :=
  match s with
  | c :: rest =>
      if c =? cu "." then
        match take_digits rest with
        | ([], _) => None
        | (ds, tl) => Some (ds, tl)
        end
      else Some ([], s)
  | [] => Some ([], [])
  end.

Definition take_exp (s : jsstring) : option (Z * jsstring) :=
  match s with
  | c :: rest =>
      if (c =? cu "e") || (c =? cu "E") then
        let '(neg, rest') :=
          match rest with
          | d :: tl =>
              if d =? cu "-" then (true, tl)
              else if d =? cu "+" then (false, tl)
              else (false, rest)
          | [] => (false, [])
          end in
        match take_digits rest' with
        | ([], _) => None
        | (ds, tl) =>
            let e := Z.of_N (digits_value ds) in
            Some (if neg then (- e)%Z else e, tl)
        end
      else Some (0%Z, s)
  | [] => Some (0%Z, [])
  end.

Definition number_of_literal (lexeme : jsstring) : option number :=
  let (neg, s1) := take_sign lexeme in
  match take_int s1 with
  | None => None
  | Some (int, s2) =>
      match take_frac s2 with
      | None => None
      | Some (frac, s3) =>
          match take_exp s3 with
          | Some (e, []) =>
              Some (mkNumber neg (digits_value (int ++ frac))
                             (e - Z.of_nat (List.length frac)))
          | _ => None
          end
      end
  end.

Definition word_token (w : jsstring) : option token :=
  if jsstring_eqb w (str "true") then Some TTrue
  else if jsstring_eqb w (str "false") then Some TFalse
  else if jsstring_eqb w (str "null") then Some TNull
  else None.

(** ** The lexer

    Numbers and the three literal names are read greedily and checked when
    they end: no token that may follow a value starts with a code unit of a
    number or with a letter, so a longer run is a syntax error either way. *)
Inductive lex_state :=
| LStart                                   (* between tokens *)
| LString (acc : jsstring)                 (* in a string; acc is reversed *)
| LEscape (acc : jsstring)                 (* after a backslash *)
| LUnicode (acc : jsstring) (seen : nat) (code : N)  (* after \u *)
| LNumber (acc : jsstring)                 (* in a number literal *)
| LWord (acc : jsstring).                  (* in true, false or null *)

Definition lex_start (c : code_unit) : option (lex_state * list token) :=
  if is_whitespace c then Some (LStart, [])
  else if c =? cu "{" then Some (LStart, [TLBrace])
  else if c =? cu "}" then Some (LStart, [TRBrace])
  else if c =? cu "[" then Some (LStart, [TLBracket])
  else if c =? cu "]" then Some (LStart, [TRBracket])
  else if c =? cu ":" then Some (LStart, [TColon])
  else if c =? cu "," then Some (LStart, [TComma])
  else if c =? QUOTE then Some (LString [], [])
  else if (c =? cu "-") || is_digit c then Some (LNumber [c], [])
  else if is_lower c then Some (LWord [c], [])
  else None.

(** The token a pending number or word makes when it ends. *)
Definition lex_flush (st : lex_state) : option (list token) :=
  match st with
  | LStart => Some []
  | LNumber acc =>
      match number_of_literal (rev acc) with
      | Some n => Some [TNumber n]
      | None => None
      end
  | LWord acc =>
      match word_token (rev acc) with
      | Some t => Some [t]
      | None => None
      end
  | _ => None
  end.

Definition lex_step (st : lex_state) (c : code_unit)
  : option (lex_state * list token) :=
  match st with
  | LStart => lex_start c
  | LString acc =>
      if c =? QUOTE then Some (LStart, [TString (rev acc)])
      else if c =? BACKSLASH then Some (LEscape acc, [])
      else if c <? 32 then None
      else Some (LString (c :: acc), [])
  | LEscape acc =>
      if c =? cu "u" then Some (LUnicode acc 0 0, [])
      else match escape_value c with
           | Some d => Some (LString (d :: acc), [])
           | None => None
           end
  | LUnicode acc seen code =>
      match hex_value c with
      | Some h =>
          let code' := 16 * code + h in
          if (seen =? 3)%nat then Some (LString (code' :: acc), [])
          else Some (LUnicode acc (S seen) code', [])
      | None => None
      end
  | LNumber acc =>
      if is_number_char c then Some (LNumber (c :: acc), [])
      else match lex_flush st, lex_start c with
           | Some ts, Some (st', ts') => Some (st', ts ++ ts')
           | _, _ => None
           end
  | LWord acc =>
      if is_lower c then Some (LWord (c :: acc), [])
      else match lex_flush st, lex_start c with
           | Some ts, Some (st', ts') => Some (st', ts ++ ts')
           | _, _ => None
           end
  end.

Fixpoint lex (st : lex_state) (text : jsstring) : option (list token) :=
  match text with
  | [] => lex_flush st
  | c :: rest =>
      match lex_step st c with
      | Some (st', ts) =>
          match lex st' rest with
          | Some more => Some (ts ++ more)
          | None => None
          end
      | None => None
      end
  end.

(** ** The recogniser

    The stack holds the containers that are open around the current
    position: an array with the elements read so far (newest first), or an
    object with its members so far and the key whose value is being read. *)
Inductive frame :=
| FArray (acc : list value)
| FObject (acc : properties) (key : jsstring).

Inductive parse_state :=
| PValue (stack : list frame)                 (* a value must come *)
| PArrayFirst (stack : list frame)            (* after [ *)
| PArrayNext (acc : list value) (stack : list frame)   (* after an element *)
| PObjectFirst (stack : list frame)           (* after { *)
| PObjectKey (acc : properties) (stack : list frame)   (* after , in an object *)
| PObjectColon (acc : properties) (key : jsstring) (stack : list frame)
| PObjectNext (acc : properties) (stack : list frame)  (* after a member *)
| PDone (v : value).

(** A value is complete: hand it to the container it belongs to.  A
    repeated key overwrites the earlier member. *)
Definition deliver (v : value) (stack : list frame) : parse_state :=
  match stack with
  | [] => PDone v
  | FArray acc :: stack' => PArrayNext (v :: acc) stack'
  | FObject acc key :: stack' =>
      PObjectNext (define_property acc key v) stack'
  end.

Definition begin_value (t : token) (stack : list frame)
  : option parse_state :=
  match t with
  | TNull => Some (deliver JNull stack)
  | TTrue => Some (deliver (JBool true) stack)
  | TFalse => Some (deliver (JBool false) stack)
  | TNumber n => Some (deliver (JNumber n) stack)
  | TString s => Some (deliver (JString s) stack)
  | TLBracket => Some (PArrayFirst stack)
  | TLBrace => Some (PObjectFirst stack)
  | _ => None
  end.

Definition parse_step (st : parse_state) (t : token) : option parse_state :=
  match st, t with
  | PValue stack, _ => begin_value t stack
  | PArrayFirst stack, TRBracket => Some (deliver (JArray []) stack)
  | PArrayFirst stack, _ => begin_value t (FArray [] :: stack)
  | PArrayNext acc stack, TComma => Some (PValue (FArray acc :: stack))
  | PArrayNext acc stack, TRBracket => Some (deliver (JArray (rev acc)) stack)
  | PObjectFirst stack, TRBrace => Some (deliver (JObject []) stack)
  | PObjectFirst stack, TString k => Some (PObjectColon [] k stack)
  | PObjectKey acc stack, TString k => Some (PObjectColon acc k stack)
  | PObjectColon acc k stack, TColon => Some (PValue (FObject acc k :: stack))
  | PObjectNext acc stack, TComma => Some (PObjectKey acc stack)
  | PObjectNext acc stack, TRBrace => Some (deliver (JObject acc) stack)
  | _, _ => None
  end.

Fixpoint parse_tokens (st : parse_state) (ts : list token) : option value :=
  match ts with
  | [] => match st with PDone v => Some v | _ => None end
  | t :: rest =>
      match parse_step st t with
      | Some st' => parse_tokens st' rest
      | None => None
      end
  end.

(** [JSON.parse(text)]: the value, or a SyntaxError. *)
Definition parse (text : jsstring) : result value :=
  match lex LStart text with
  | Some ts =>
      match parse_tokens (PValue []) ts with
      | Some v => Ok v
      | None => Throw SyntaxError
      end
  | None => Throw SyntaxError
  end.

End JSON.

(** * What the program takes from outside

    The collaborators are outside the repository: the MongoDB connection
    and the LangChain agent with its retriever tools and language model.
    So is the serializer of the JavaScript engine: the text it produces
    involves the rendering of floating-point numbers, whether it returns
    depends on the depth of the value and the stack of the engine, and the
    program only passes its text on.  Their behaviour in one turn is an
    arbitrary member of [Environment]; every statement about the formatter
    and the handler holds for all of them. *)

(** The agent executor built by [initializeAgent]: an opaque handle that
    has the three retriever tools bound into it.  Retrievers are reachable
    only through it. *)
Inductive AgentExecutor := agentExecutor.

Record Environment := {
  (** [JSON.stringify(v, null, 2)]: a string, or undefined ([None]), or
      the exception it throws (a RangeError on a value nested too deep) *)
  JSON_stringify : value -> result (option jsstring);
  (** the serialization of [body] by which [res.json(body)] begins: it
      returns, or throws as [JSON.stringify] does, before anything is
      sent *)
  res_json_stringify : value -> result unit;
  (** how the set-up awaited by [initializeAgent] ends *)
  agent_setup : result AgentExecutor;
  (** [(await agentExecutor.invoke({ input, chat_history })).output]: the
      agent's final text, or the exception of a failed invocation (a model
      or retrieval call that failed) *)
  agent_reply : AgentExecutor -> value -> list value -> result jsstring
}.

(** A value interpolated into a template literal. *)
Definition interpolate (s : option jsstring) : jsstring :=
  match s with
  | Some t => t
  | None => str "undefined"
  end.

(** ** Tasks: what the handler does, in order, and how it ends *)

Inductive event :=
| InitializeAgent
| Invoke (input : value) (chat_history : list value)
| Respond (status : N) (body : value).

(** The calls made so far, and the value or the exception they led to.  An
    exception that leaves the handler rejects its promise. *)
Definition task (A : Type) : Type := list event * result A.

Definition pure {A} (r : result A) : task A := ([], r).

Definition perform {A} (e : event) (r : result A) : task A := ([e], r).

Definition task_bind {A B} (t : task A) (k : A -> task B) : task B :=
  match t with
  | (log, Ok a) => let (log', r) := k a in (log ++ log', r)
  | (log, Throw e) => (log, Throw e)
  end.

Notation "'do!' x ':=' t 'in' k" := (task_bind t (fun x => k))
  (at level 10, x name, t at level 100, k at level 200).

Definition task_try_catch {A} (body : task A) (handler : exn -> task A)
  : task A :=
  match body with
  | (log, Throw e) => let (log', r) := handler e in (log ++ log', r)
  | t => t
  end.

(** A response goes out with [status] and [body]. *)
Definition respond (status : N) (body : value) : task unit :=
  perform (Respond status body) (Ok tt).

(** [res.status(status).json({ error: message })]: the body is an object
    literal with one string, which always serializes. *)
Definition res_status_json (status : N) (message : string) : task unit :=
  respond status (object [("error", JString (str message))]).

(** [res.json(body)], status 200: the body is serialized first, and when
    that throws nothing has been sent. *)
Definition res_json (env : Environment) (body : value) : task unit :=
  do! serialized := pure (res_json_stringify env body) in
  respond 200 body.

(** The elements of [chat_history], read behind [Array.isArray]. *)
Definition elements (v : value) : list value :=
  match v with
  | JArray elems => elems
  | _ => []
  end.

(** [{ type: "fallback", output: message }] *)
Definition fallback (message : jsstring) : value :=
  object [("type", JString (str "fallback")); ("output", JString message)].

Definition parse_failure_message : jsstring :=
  str "Failed to retrieve a valid response.".

Definition semantic_fallback_message : jsstring :=
  str "The comparison did not retrieve enough details. Please try a different query.".

(** * The first version (lines 1-278) *)
Module V1.

(** [ManifestoOutputParser.parseOutput], lines 37-71.  [console.error] in
    the catch block only logs. *)
Definition parseOutput (output : jsstring) : result value :=
  call (seq
    (try_catch
       (var! parsedResponse := JSON.parse output in
        var! type := Get parsedResponse "type" in
        if strict_eq_string type "Comparison" then
          var! ComparisonArray := Get parsedResponse "ComparisonArray" in
          if ToBoolean ComparisonArray
             && isArray ComparisonArray
             && length_positive ComparisonArray
          then Return parsedResponse
          else Return (fallback semantic_fallback_message)
        else if strict_eq_string type "normal" then
          var! normalOutput := Get parsedResponse "output" in
          if ToBoolean normalOutput && typeof_string normalOutput
          then Return parsedResponse
          else Normal
        else Normal)
       (fun error => Return (fallback parse_failure_message)))
    (Return (fallback output))).

(** The callback of [history.map], lines 76-93. *)
Definition format_message (env : Environment) (message : value)
  : result value :=
  let! type := Get message "type" in
  if strict_eq_string type "Comparison" then
    let! ComparisonArray := Get message "ComparisonArray" in
    let! text := JSON_stringify env ComparisonArray in
    Ok (object
          [("role", JString (str "assistant"));
           ("content",
            JString (str "Comparison: " ++ interpolate text))])
  else if strict_eq_string type "normal" then
    let! output := Get message "output" in
    Ok (object [("role", JString (str "assistant")); ("content", output)])
  else
    let! role := Get message "role" in
    if strict_eq_string role "human" then
      let! input := Get message "input" in
      Ok (object [("role", JString (str "human")); ("content", input)])
    else Ok JNull.

(** [formatConversationHistory], lines 75-95. *)
Definition formatConversationHistory (env : Environment)
    (history : list value) : result (list value) :=
  let! mapped := array_map (format_message env) history in
  Ok (filter not_null mapped).

(** [initializeAgent], lines 98-232: awaits the MongoDB connection, builds
    the vector stores, retrievers, tools and the agent. *)
Definition initializeAgent (env : Environment) : task AgentExecutor :=
  perform InitializeAgent (agent_setup env).

(** The handler of [POST /query], lines 235-273, on [req.body]. *)
Definition query_handler (env : Environment) (body : value) : task unit :=
  do! input := pure (Get body "input") in
  do! chat_history := pure (Get body "chat_history") in
  if negb (ToBoolean input) || negb (isArray chat_history) then
    res_status_json 400 "Input and chat history are required"
  else
    do! agentExecutor := initializeAgent env in
    task_try_catch
      (do! formattedHistory :=
         pure (formatConversationHistory env (elements chat_history)) in
       do! agentResponse_output :=
         perform (Invoke input formattedHistory)
                 (agent_reply env agentExecutor input formattedHistory) in
       do! parsedAgentResponse := pure (parseOutput agentResponse_output) in
       let updatedChatHistory :=
         elements chat_history
         ++ [object [("role", JString (str "human")); ("input", input)];
             parsedAgentResponse] in
       res_json env
         (object [("response", parsedAgentResponse);
                  ("chat_history", JArray updatedChatHistory)]))
      (fun error =>
         res_status_json 500 "An error occurred while processing the query").

End V1.

(** * The second version (lines 279-519) *)
Module V2.

(** [ManifestoOutputParser.parseOutput], lines 318-337. *)
Definition parseOutput (output : jsstring) : result value :=
  call (seq
    (try_catch
       (var! parsedResponse := JSON.parse output in
        var! type := Get parsedResponse "type" in
        var! normalOutput := Get parsedResponse "output" in
        var! ComparisonArray := Get parsedResponse "ComparisonArray" in
        if strict_eq_string type "Comparison"
           && isArray ComparisonArray
           && length_positive ComparisonArray
        then Return parsedResponse
        else if strict_eq_string type "normal" && typeof_string normalOutput
        then Return parsedResponse
        else Normal)
       (fun error => Normal))
    (Return (fallback parse_failure_message))).

(** The callback of [history.map], lines 343-358. *)
Definition format_message (env : Environment) (message : value)
  : result value :=
  let! type := Get message "type" in
  if strict_eq_string type "Comparison" then
    let! ComparisonArray := Get message "ComparisonArray" in
    let! text := JSON_stringify env ComparisonArray in
    Ok (object
          [("role", JString (str "assistant"));
           ("content",
            JString (str "Comparison: " ++ interpolate text))])
  else if strict_eq_string type "normal" then
    let! output := Get message "output" in
    Ok (object [("role", JString (str "assistant")); ("content", output)])
  else
    let! role := Get message "role" in
    if strict_eq_string role "human" then
      let! input := Get message "input" in
      Ok (object [("role", JString (str "human")); ("content", input)])
    else Ok JNull.

(** [formatConversationHistory], lines 341-361; the filter is
    [.filter(Boolean)]. *)
Definition formatConversationHistory (env : Environment)
    (history : list value) : result (list value) :=
  let! mapped := array_map (format_message env) history in
  Ok (filter ToBoolean mapped).

(** [initializeAgent], lines 386-470: the catch block logs and rethrows.
    In this version the connection promise never rejects: its own catch
    (lines 311-314) ends the process with [process.exit(1)] when MongoDB
    cannot be reached, and then no request is answered at all.  A turn
    described here is one of a process that is still running; in it
    [agent_setup env] is how the later steps of lines 388-465 end. *)
Definition initializeAgent (env : Environment) : task AgentExecutor :=
  task_try_catch
    (perform InitializeAgent (agent_setup env))
    (fun error => pure (Throw error)).

(** The handler of [POST /query], lines 473-514, on [req.body]. *)
Definition query_handler (env : Environment) (body : value) : task unit :=
  do! input := pure (Get body "input") in
  do! chat_history := pure (Get body "chat_history") in
  if negb (ToBoolean input) || negb (isArray chat_history) then
    res_status_json 400 "Input and chat history are required"
  else
    task_try_catch
      (do! agentExecutor := initializeAgent env in
       do! formattedHistory :=
         pure (formatConversationHistory env (elements chat_history)) in
       do! agentResponse_output :=
         perform (Invoke input formattedHistory)
                 (agent_reply env agentExecutor input formattedHistory) in
       do! parsedAgentResponse := pure (parseOutput agentResponse_output) in
       let updatedChatHistory :=
         elements chat_history
         ++ [object [("role", JString (str "human")); ("input", input)];
             parsedAgentResponse] in
       res_json env
         (object [("response", parsedAgentResponse);
                  ("chat_history", JArray updatedChatHistory)]))
      (fun error =>
         res_status_json 500 "An error occurred while processing the query").

End V2.

(** * The vocabulary of the specification *)

(** The three canonical response shapes, told apart by the discriminant:
    [Normal] has a string [output], [Comparison] a non-empty
    [ComparisonArray], [Fallback] a string [output]. *)
Definition field (v : value) (k : string) : value :=
  match Get v k with
  | Ok x => x
  | Throw _ => JUndefined
  end.

Definition is_Normal (v : value) : bool :=
  strict_eq_string (field v "type") "normal"
  && typeof_string (field v "output").

Definition is_Comparison (v : value) : bool :=
  strict_eq_string (field v "type") "Comparison"
  && isArray (field v "ComparisonArray")
  && length_positive (field v "ComparisonArray").

Definition is_Fallback (v : value) : bool :=
  strict_eq_string (field v "type") "fallback"
  && typeof_string (field v "output").

(** A non-empty string. *)
Definition nonempty_string (v : value) : bool :=
  match v with
  | JString (_ :: _) => true
  | _ => false
  end.

(** What one stored entry contributes to the formatted history, in the
    words of the specification and with the precedence of the code: the
    discriminant is looked at before the role. *)
Definition assistant_message (content : value) : value :=
  object [("role", JString (str "assistant")); ("content", content)].

Definition human_message (content : value) : value :=
  object [("role", JString (str "human")); ("content", content)].

Definition formatted_entry (env : Environment) (entry : value) : list value :=
  if strict_eq_string (field entry "type") "Comparison" then
    match JSON_stringify env (field entry "ComparisonArray") with
    | Ok text =>
        [assistant_message (JString (str "Comparison: " ++ interpolate text))]
    | Throw _ => []
    end
  else if strict_eq_string (field entry "type") "normal" then
    [assistant_message (field entry "output")]
  else if strict_eq_string (field entry "role") "human" then
    [human_message (field entry "input")]
  else [].

(** An entry whose properties can be read: anything but [null] (and
    [undefined], which no JSON text denotes). *)
Definition readable (entry : value) : bool :=
  match entry with
  | JUndefined | JNull => false
  | _ => true
  end.

(** The exception on which the formatter's callback ends on an entry, if
    it does: the TypeError of reading [message.type] on [null], or what
    the serializer throws on the array of a "Comparison" entry. *)
Definition entry_failure (env : Environment) (entry : value) : option exn :=
  if readable entry then
    if strict_eq_string (field entry "type") "Comparison" then
      match JSON_stringify env (field entry "ComparisonArray") with
      | Ok _ => None
      | Throw e => Some e
      end
    else None
  else Some TypeError.

Definition entry_formats (env : Environment) (entry : value) : bool :=
  match entry_failure env entry with
  | None => true
  | Some _ => false
  end.

(** The bodies of the three responses of the handler. *)
Definition invalid_request : value :=
  object [("error", JString (str "Input and chat history are required"))].

Definition processing_error : value :=
  object [("error",
           JString (str "An error occurred while processing the query"))].

Definition human_turn (input : value) : value :=
  object [("role", JString (str "human")); ("input", input)].

Definition turn_reply (response : value) (history : list value) : value :=
  object [("response", response); ("chat_history", JArray history)].

(** The request was rejected as invalid. *)
Definition rejected (t : task unit) : Prop :=
  In (Respond 400 invalid_request) (fst t).

(** A collaborator was called. *)
Definition is_collaborator_call (e : event) : bool :=
  match e with
  | InitializeAgent | Invoke _ _ => true
  | Respond _ _ => false
  end.

(** ** Sample turns *)

(** The raw agent texts of the end-to-end examples. *)
Definition example_normal : jsstring :=
  json_text "{'type':'normal','output':'The NPP manifesto proposes X.'}".

Definition example_empty_comparison : jsstring :=
  json_text "{'type':'Comparison','ComparisonArray':[]}".

Definition example_not_json : jsstring := str "not json at all".

Definition example_comparison : jsstring :=
  json_text
    "{'type':'Comparison','title':'NPP and SJB','ComparisonArray':[{'name':'NPP','pointArray':[]}],'keyPoints':'none'}".

Definition example_comparison_value : value :=
  object [("type", JString (str "Comparison"));
          ("title", JString (str "NPP and SJB"));
          ("ComparisonArray",
           JArray [object [("name", JString (str "NPP"));
                           ("pointArray", JArray [])]]);
          ("keyPoints", JString (str "none"))].

Definition example_unknown_type : jsstring :=
  json_text "{'type':'summary','output':'text'}".

Definition example_wrong_array : jsstring :=
  json_text "{'type':'Comparison','ComparisonArray':5}".

Definition example_empty_output : jsstring :=
  json_text "{'type':'normal','output':''}".

(** The serializer as a table with the one value the sample turns
    serialise: the empty array. *)
Definition sample_stringify (v : value) : result (option jsstring) :=
  match v with
  | JArray [] => Ok (Some (str "[]"))
  | _ => Ok None
  end.

(** A serializer that overflows on every array that is not empty, as the
    engine's does on one nested too deep. *)
Definition overflowing_stringify (v : value) : result (option jsstring) :=
  match v with
  | JArray (_ :: _) => Throw RangeError
  | _ => sample_stringify v
  end.

(** A turn in which every collaborator works and the agent answers with
    [example_normal]. *)
Definition sample_env : Environment :=
  {| JSON_stringify := sample_stringify;
     res_json_stringify := fun _ => Ok tt;
     agent_setup := Ok agentExecutor;
     agent_reply := fun _ _ _ => Ok example_normal |}.

(** A turn in which the agent cannot be set up. *)
Definition setup_failure : exn := Failure (str "MongoDB connection refused").

Definition failing_setup_env : Environment :=
  {| JSON_stringify := sample_stringify;
     res_json_stringify := fun _ => Ok tt;
     agent_setup := Throw setup_failure;
     agent_reply := fun _ _ _ => Ok example_normal |}.

(** A turn in which the agent's invocation fails. *)
Definition failing_reply_env : Environment :=
  {| JSON_stringify := sample_stringify;
     res_json_stringify := fun _ => Ok tt;
     agent_setup := Ok agentExecutor;
     agent_reply := fun _ _ _ => Throw (Failure (str "model unreachable")) |}.

(** A turn in which the agent cannot be set up for a reason other than
    the connection. *)
Definition rejecting_setup_env : Environment :=
  {| JSON_stringify := sample_stringify;
     res_json_stringify := fun _ => Ok tt;
     agent_setup := Throw (Failure (str "OpenAI API key not found"));
     agent_reply := fun _ _ _ => Ok example_normal |}.

(** A turn in which every collaborator works and the agent answers with
    [example_comparison], but the serializer overflows. *)
Definition overflowing_env : Environment :=
  {| JSON_stringify := overflowing_stringify;
     res_json_stringify := fun _ => Throw RangeError;
     agent_setup := Ok agentExecutor;
     agent_reply := fun _ _ _ => Ok example_comparison |}.

(** A stored comparison whose array is not empty. *)
Definition stored_comparison : value :=
  object [("type", JString (str "Comparison"));
          ("ComparisonArray",
           JArray [object [("name", JString (str "NPP"));
                           ("pointArray", JArray [])]])].

Definition sample_history : list value :=
  [human_turn (JString (str "Hi"));
   object [("type", JString (str "normal")); ("output", JString (str "Hello."))];
   human_turn (JString (str "Compare them"));
   object [("type", JString (str "Comparison")); ("ComparisonArray", JArray [])];
   fallback parse_failure_message].

Definition sample_body : value :=
  object [("input", JString (str "Hello")); ("chat_history", JArray [])].

Definition sample_body_with_history : value :=
  object [("input", JString (str "Hello"));
          ("chat_history", JArray sample_history)].

Definition sample_response : value :=
  object [("type", JString (str "normal"));
          ("output", JString (str "The NPP manifesto proposes X."))].

(** The reply to [sample_body_with_history] in [sample_env]. *)
Definition sample_reply : value :=
  turn_reply sample_response
    (sample_history ++ [human_turn (JString (str "Hello")); sample_response]).

Definition body_without_history : value :=
  object [("input", JString (str "Hello"))].

Definition body_with_numeric_input : value :=
  object [("input", JNumber (mkNumber false 5 0));
          ("chat_history", JArray [])].

(** An entry that carries both a discriminant and the human role. *)
Definition typed_human_entry : value :=
  object [("type", JString (str "normal")); ("role", JString (str "human"));
          ("input", JString (str "hi")); ("output", JString (str "x"))].

(** * Properties *)

Arguments str : simpl never.
Arguments object : simpl never.
Arguments fallback : simpl never.

(** ** Strings, property reads and truthiness *)

Lemma jsstring_eqb_eq (s t : jsstring) : jsstring_eqb s t = true <-> s = t.
Proof.
  revert t; induction s as [|c s IH]; intros [|d t]; simpl;
    try (split; [discriminate | discriminate]); [tauto|].
  rewrite andb_true_iff, N.eqb_eq, IH.
  split; [intros [-> ->]; reflexivity | intros [= -> ->]; auto].
Qed.

Lemma strict_eq_string_spec (v : value) (s : string) :
  strict_eq_string v s = true <-> v = JString (str s).
Proof.
  destruct v; simpl; try (split; [discriminate | discriminate]).
  rewrite jsstring_eqb_eq. split; [intros ->; reflexivity | intros [= ->]; auto].
Qed.

Lemma strict_eq_string_refl (s : string) :
  strict_eq_string (JString (str s)) s = true.
Proof. apply strict_eq_string_spec; reflexivity. Qed.

Lemma strict_eq_string_false (v : value) (s : string) :
  v <> JString (str s) -> strict_eq_string v s = false.
Proof.
  intros H. destruct (strict_eq_string v s) eqn:E; [|reflexivity].
  apply strict_eq_string_spec in E. contradiction.
Qed.

Lemma Get_field (v : value) (k : string) (x : value) :
  Get v k = Ok x -> x = field v k.
Proof. unfold field. intros ->. reflexivity. Qed.

Lemma Get_readable (v : value) (k : string) :
  readable v = true -> Get v k = Ok (field v k).
Proof. unfold field. destruct v; simpl; try discriminate; reflexivity. Qed.

Lemma Get_unreadable (v : value) (k : string) :
  readable v = false -> Get v k = Throw TypeError.
Proof. destruct v; simpl; try discriminate; reflexivity. Qed.

Lemma Get_ok_readable (v : value) (k : string) (x : value) :
  Get v k = Ok x -> readable v = true.
Proof. destruct v; simpl; try discriminate; reflexivity. Qed.

(** The guard on [ComparisonArray]: truthiness adds nothing to
    [Array.isArray]. *)
Lemma array_guard (v : value) :
  ToBoolean v && isArray v && length_positive v = length_positive v.
Proof.
  destruct v as [| | | | | [|e es] |]; simpl;
    rewrite ?andb_false_r; reflexivity.
Qed.

Lemma array_guard_second (v : value) :
  isArray v && length_positive v = length_positive v.
Proof. destruct v as [| | | | | [|e es] |]; reflexivity. Qed.

(** The guard on [output] of the first version: a non-empty string. *)
Lemma output_guard (v : value) :
  ToBoolean v && typeof_string v = nonempty_string v.
Proof.
  destruct v as [| | | | [|c s] | |]; simpl;
    rewrite ?andb_false_r; reflexivity.
Qed.

Lemma length_positive_cons (v : value) :
  length_positive v = true <-> exists e es, v = JArray (e :: es).
Proof.
  destruct v as [| | | | | [|e es] |]; simpl;
    try (split; [discriminate | intros (? & ? & [=])]).
  split; eauto.
Qed.

(** ** JSON.parse never yields undefined *)

Lemma deliver_defined (v : value) (stack : list JSON.frame) (w : value) :
  v <> JUndefined -> JSON.deliver v stack = JSON.PDone w -> w <> JUndefined.
Proof.
  intros Hv. destruct stack as [|[acc|acc key] stack]; simpl;
    [intros [= <-]; exact Hv | discriminate | discriminate].
Qed.

Lemma begin_value_defined (t : JSON.token) (stack : list JSON.frame)
    (w : value) :
  JSON.begin_value t stack = Some (JSON.PDone w) -> w <> JUndefined.
Proof.
  destruct t; simpl; try discriminate;
    intros [= H]; apply deliver_defined in H; (exact H || discriminate).
Qed.

Lemma parse_step_defined (st : JSON.parse_state) (t : JSON.token)
    (w : value) :
  JSON.parse_step st t = Some (JSON.PDone w) -> w <> JUndefined.
Proof.
  destruct st; destruct t; simpl; try discriminate;
    try (apply begin_value_defined);
    intros [= H]; apply deliver_defined in H; (exact H || discriminate).
Qed.

Lemma parse_tokens_defined (ts : list JSON.token) (st : JSON.parse_state)
    (v : value) :
  (forall w, st = JSON.PDone w -> w <> JUndefined) ->
  JSON.parse_tokens st ts = Some v -> v <> JUndefined.
Proof.
  revert st. induction ts as [|t ts IH]; intros st Hst; simpl.
  - destruct st; try discriminate. intros [= <-]. apply Hst. reflexivity.
  - destruct (JSON.parse_step st t) as [st'|] eqn:Hstep; [|discriminate].
    apply IH. intros w ->. exact (parse_step_defined _ _ _ Hstep).
Qed.

Lemma parse_defined (text : jsstring) (v : value) :
  JSON.parse text = Ok v -> v <> JUndefined.
Proof.
  unfold JSON.parse. destruct (JSON.lex JSON.LStart text) as [ts|];
    [|discriminate].
  destruct (JSON.parse_tokens (JSON.PValue []) ts) as [w|] eqn:Hw;
    [|discriminate].
  intros [= <-]. eapply parse_tokens_defined; [|exact Hw].
  intros w' H. discriminate H.
Qed.

Lemma parsed_unreadable_is_null (text : jsstring) (v : value) :
  JSON.parse text = Ok v -> readable v = false -> v = JNull.
Proof.
  intros Hparse R. apply parse_defined in Hparse.
  destruct v; try discriminate R; [contradiction | reflexivity].
Qed.

(** ** The output normalizer, case by case *)

Lemma parseOutput_cases (output : jsstring) :
  V1.parseOutput output =
  match JSON.parse output with
  | Throw _ => Ok (fallback parse_failure_message)
  | Ok parsed =>
      if readable parsed then
        if strict_eq_string (field parsed "type") "Comparison" then
          if length_positive (field parsed "ComparisonArray")
          then Ok parsed
          else Ok (fallback semantic_fallback_message)
        else if strict_eq_string (field parsed "type") "normal" then
          if nonempty_string (field parsed "output")
          then Ok parsed
          else Ok (fallback output)
        else Ok (fallback output)
      else Ok (fallback parse_failure_message)
  end.
Proof.
  unfold V1.parseOutput.
  destruct (JSON.parse output) as [parsed|e]; [|reflexivity].
  destruct (readable parsed) eqn:R.
  - cbn [eval]. rewrite (Get_readable _ "type" R). cbn [eval].
    destruct (strict_eq_string (field parsed "type") "Comparison").
    + rewrite (Get_readable _ "ComparisonArray" R). cbn [eval].
      rewrite array_guard.
      destruct (length_positive _); reflexivity.
    + destruct (strict_eq_string (field parsed "type") "normal");
        [|reflexivity].
      rewrite (Get_readable _ "output" R). cbn [eval].
      rewrite output_guard.
      destruct (nonempty_string _); reflexivity.
  - cbn [eval]. rewrite (Get_unreadable _ _ R). reflexivity.
Qed.

Lemma parseOutput_second_cases (output : jsstring) :
  V2.parseOutput output =
  match JSON.parse output with
  | Throw _ => Ok (fallback parse_failure_message)
  | Ok parsed =>
      if readable parsed then
        if strict_eq_string (field parsed "type") "Comparison"
           && length_positive (field parsed "ComparisonArray")
        then Ok parsed
        else if strict_eq_string (field parsed "type") "normal"
                && typeof_string (field parsed "output")
        then Ok parsed
        else Ok (fallback parse_failure_message)
      else Ok (fallback parse_failure_message)
  end.
Proof.
  unfold V2.parseOutput.
  destruct (JSON.parse output) as [parsed|e]; [|reflexivity].
  destruct (readable parsed) eqn:R.
  - cbn [eval]. rewrite (Get_readable _ "type" R). cbn [eval].
    rewrite (Get_readable _ "output" R). cbn [eval].
    rewrite (Get_readable _ "ComparisonArray" R). cbn [eval].
    rewrite <- andb_assoc, array_guard_second.
    destruct (strict_eq_string (field parsed "type") "Comparison"
              && length_positive (field parsed "ComparisonArray"));
      [reflexivity|].
    destruct (strict_eq_string (field parsed "type") "normal"
              && typeof_string (field parsed "output")); reflexivity.
  - cbn [eval]. rewrite (Get_unreadable _ _ R). reflexivity.
Qed.

Lemma parseOutput_returns (output : jsstring) :
  exists response, V1.parseOutput output = Ok response.
Proof.
  rewrite parseOutput_cases.
  destruct (JSON.parse output) as [parsed|e]; [|eauto].
  destruct (readable parsed); [|eauto].
  destruct (strict_eq_string (field parsed "type") "Comparison").
  - destruct (length_positive _); eauto.
  - destruct (strict_eq_string (field parsed "type") "normal"); [|eauto].
    destruct (nonempty_string _); eauto.
Qed.

Lemma messages_distinct : semantic_fallback_message <> parse_failure_message.
Proof. discriminate. Qed.

Lemma fallback_injective (s t : jsstring) : fallback s = fallback t -> s = t.
Proof. unfold fallback, object. simpl. intros [= H]. exact H. Qed.

Lemma fallback_is_Fallback (message : jsstring) :
  is_Normal (fallback message) = false
  /\ is_Comparison (fallback message) = false
  /\ is_Fallback (fallback message) = true.
Proof. repeat split. Qed.

Lemma parse_failure_message_is_not_json :
  JSON.parse parse_failure_message = Throw SyntaxError.
Proof. vm_compute. reflexivity. Qed.

Lemma Comparison_is_not_normal (type : value) :
  strict_eq_string type "Comparison" = true ->
  strict_eq_string type "normal" = false
  /\ strict_eq_string type "fallback" = false.
Proof.
  intros H. apply strict_eq_string_spec in H. subst type. split; reflexivity.
Qed.

Lemma normal_is_not_fallback (type : value) :
  strict_eq_string type "normal" = true ->
  strict_eq_string type "fallback" = false.
Proof.
  intros H. apply strict_eq_string_spec in H. subst type. reflexivity.
Qed.

Lemma nonempty_string_typeof (v : value) :
  nonempty_string v = true -> typeof_string v = true.
Proof. destruct v as [| | | | [|c s] | |]; simpl; congruence. Qed.

Lemma Ok_injective {A : Type} (a b : A) : Ok a = Ok b -> a = b.
Proof. intros [= H]. exact H. Qed.

Lemma echo_is_not_parse_failure (output : jsstring) (parsed : value) :
  JSON.parse output = Ok parsed ->
  fallback output <> fallback parse_failure_message.
Proof.
  intros Hparse Heq. apply fallback_injective in Heq. subst output.
  rewrite parse_failure_message_is_not_json in Hparse. discriminate.
Qed.

Lemma fallback_is_not_normal (message : jsstring) (parsed : value) :
  strict_eq_string (field parsed "type") "normal" = true ->
  fallback message <> parsed.
Proof. intros H <-. discriminate H. Qed.

Lemma unreadable_has_no_shape (v : value) :
  readable v = false ->
  is_Normal v = false /\ is_Comparison v = false /\ is_Fallback v = false.
Proof. destruct v; try discriminate; repeat split. Qed.

Lemma shapes_of_Comparison (v : value) :
  strict_eq_string (field v "type") "Comparison" = true ->
  is_Normal v = false
  /\ is_Comparison v = length_positive (field v "ComparisonArray")
  /\ is_Fallback v = false.
Proof.
  intros E. destruct (Comparison_is_not_normal _ E) as [Hn Hf].
  unfold is_Normal, is_Comparison, is_Fallback.
  rewrite E, Hn, Hf, <- andb_assoc, array_guard_second. repeat split.
Qed.

Lemma shapes_of_normal (v : value) :
  strict_eq_string (field v "type") "Comparison" = false ->
  strict_eq_string (field v "type") "normal" = true ->
  is_Normal v = typeof_string (field v "output")
  /\ is_Comparison v = false
  /\ is_Fallback v = false.
Proof.
  intros Ec En. unfold is_Normal, is_Comparison, is_Fallback.
  rewrite Ec, En, (normal_is_not_fallback _ En). repeat split.
Qed.

Lemma shapes_of_other (v : value) :
  strict_eq_string (field v "type") "Comparison" = false ->
  strict_eq_string (field v "type") "normal" = false ->
  is_Normal v = false /\ is_Comparison v = false.
Proof.
  intros Ec En. unfold is_Normal, is_Comparison.
  rewrite Ec, En. repeat split.
Qed.

(** C1. When [JSON.parse] rejects the text, the first version returns the
    Fallback that carries the fixed parse-failure message.  The result is
    the same value for every rejected text: nothing of the raw text goes
    into it. *)
Theorem parse_failure_gives_fixed_fallback (output : jsstring) (e : exn) :
  JSON.parse output = Throw e ->
  V1.parseOutput output = Ok (fallback parse_failure_message)
  /\ (forall (other : jsstring) (e' : exn),
        JSON.parse other = Throw e' ->
        V1.parseOutput other = V1.parseOutput output).
Proof.
  intros H. split.
  - rewrite parseOutput_cases, H. reflexivity.
  - intros other e' H'. rewrite !parseOutput_cases, H, H'. reflexivity.
Qed.

Lemma parse_failure_gives_fixed_fallback_witness :
  JSON.parse example_not_json = Throw SyntaxError
  /\ V1.parseOutput example_not_json = Ok (fallback parse_failure_message).
Proof.
  split.
  - vm_compute. reflexivity.
  - apply (parse_failure_gives_fixed_fallback example_not_json SyntaxError).
    vm_compute. reflexivity.
Defined.

(** C2, as the code has it.  A text that parses to a value with
    discriminant "Comparison" whose [ComparisonArray] is missing, not an
    array, or empty is answered by the first version with the semantic
    Fallback, whose message differs from the parse-failure message; the
    second version has no semantic Fallback and answers it with the
    parse-failure Fallback. *)
Theorem comparison_without_details_in_both_versions
    (output : jsstring) (parsed ComparisonArray : value) :
  JSON.parse output = Ok parsed ->
  Get parsed "type" = Ok (JString (str "Comparison")) ->
  Get parsed "ComparisonArray" = Ok ComparisonArray ->
  ComparisonArray = JUndefined
  \/ isArray ComparisonArray = false
  \/ ComparisonArray = JArray [] ->
  V1.parseOutput output = Ok (fallback semantic_fallback_message)
  /\ semantic_fallback_message <> parse_failure_message
  /\ V2.parseOutput output = Ok (fallback parse_failure_message).
Proof.
  intros Hparse Htype Harray Hshape.
  assert (Hlen : length_positive ComparisonArray = false).
  { destruct Hshape as [-> | [H | ->]]; try reflexivity.
    destruct ComparisonArray; try discriminate; reflexivity. }
  split; [|split; [exact messages_distinct|]].
  - rewrite parseOutput_cases, Hparse.
    rewrite (Get_ok_readable _ _ _ Htype).
    rewrite <- (Get_field _ _ _ Htype), strict_eq_string_refl.
    rewrite <- (Get_field _ _ _ Harray), Hlen. reflexivity.
  - rewrite parseOutput_second_cases, Hparse.
    rewrite (Get_ok_readable _ _ _ Htype).
    rewrite <- (Get_field _ _ _ Htype), <- (Get_field _ _ _ Harray), Hlen.
    reflexivity.
Qed.

Lemma comparison_without_details_in_both_versions_witness :
  V1.parseOutput example_empty_comparison
  = Ok (fallback semantic_fallback_message)
  /\ semantic_fallback_message <> parse_failure_message
  /\ V2.parseOutput example_empty_comparison
     = Ok (fallback parse_failure_message).
Proof.
  apply (comparison_without_details_in_both_versions
           example_empty_comparison
           (object [("type", JString (str "Comparison"));
                    ("ComparisonArray", JArray [])])
           (JArray [])).
  - vm_compute. reflexivity.
  - vm_compute. reflexivity.
  - vm_compute. reflexivity.
  - right. right. reflexivity.
Defined.

(** C2 as stated fails for the second version: on the empty comparison it
    returns the parse-failure message, not the semantic one. *)
Lemma second_version_has_no_semantic_fallback :
  JSON.parse example_empty_comparison
  = Ok (object [("type", JString (str "Comparison"));
                ("ComparisonArray", JArray [])])
  /\ V2.parseOutput example_empty_comparison
     = Ok (fallback parse_failure_message)
  /\ V2.parseOutput example_empty_comparison
     <> Ok (fallback semantic_fallback_message).
Proof.
  split; [vm_compute; reflexivity|].
  split; [vm_compute; reflexivity|].
  vm_compute. discriminate.
Qed.

(** C3, as the code has it.  Take a text that parses to a value other
    than null whose discriminant is neither "Comparison" nor "normal", or
    whose discriminant is "normal" while [output] is not a non-empty
    string.  The first version echoes it: the Fallback's output is the raw
    text itself.  The second version never echoes: it returns the
    parse-failure Fallback, or the parsed value when that is a "normal"
    with a string [output], the empty string. *)
Theorem unrecognized_shape_in_both_versions
    (output : jsstring) (parsed type : value) :
  JSON.parse output = Ok parsed ->
  Get parsed "type" = Ok type ->
  type <> JString (str "Comparison") ->
  type <> JString (str "normal")
  \/ (exists normalOutput,
        Get parsed "output" = Ok normalOutput
        /\ nonempty_string normalOutput = false) ->
  V1.parseOutput output = Ok (fallback output)
  /\ V2.parseOutput output
     = Ok (if is_Normal parsed then parsed
           else fallback parse_failure_message)
  /\ V2.parseOutput output <> Ok (fallback output).
Proof.
  intros Hparse Htype Hcmp Hrest.
  pose proof (Get_ok_readable _ _ _ Htype) as R.
  pose proof (Get_field _ _ _ Htype) as Hfield.
  pose proof (strict_eq_string_false _ _ Hcmp) as Ecmp.
  rewrite Hfield in Ecmp.
  assert (H1 : V1.parseOutput output = Ok (fallback output)).
  { rewrite parseOutput_cases, Hparse, R, Ecmp.
    destruct Hrest as [Hnormal | (normalOutput & Hout & Hempty)].
    - rewrite Hfield in Hnormal.
      rewrite (strict_eq_string_false _ _ Hnormal). reflexivity.
    - rewrite <- (Get_field _ _ _ Hout), Hempty.
      destruct (strict_eq_string (field parsed "type") "normal");
        reflexivity. }
  assert (H2 : V2.parseOutput output
               = Ok (if is_Normal parsed then parsed
                     else fallback parse_failure_message)).
  { rewrite parseOutput_second_cases, Hparse, R, Ecmp. cbn [andb].
    destruct (strict_eq_string (field parsed "type") "normal") eqn:Enorm.
    - destruct (shapes_of_normal _ Ecmp Enorm) as (-> & _). cbn [andb].
      destruct (typeof_string (field parsed "output")); reflexivity.
    - destruct (shapes_of_other _ Ecmp Enorm) as (-> & _). reflexivity. }
  split; [exact H1|]. split; [exact H2|].
  rewrite H2. intros H. apply Ok_injective in H.
  destruct (is_Normal parsed) eqn:En.
  - unfold is_Normal in En. apply andb_true_iff in En as [En _].
    exact (fallback_is_not_normal output parsed En (eq_sym H)).
  - exact (echo_is_not_parse_failure _ _ Hparse (eq_sym H)).
Qed.

Lemma unrecognized_shape_in_both_versions_witness :
  V1.parseOutput example_unknown_type = Ok (fallback example_unknown_type)
  /\ V2.parseOutput example_unknown_type
     = Ok (fallback parse_failure_message)
  /\ V2.parseOutput example_unknown_type
     <> Ok (fallback example_unknown_type).
Proof.
  apply (unrecognized_shape_in_both_versions
           example_unknown_type
           (object [("type", JString (str "summary"));
                    ("output", JString (str "text"))])
           (JString (str "summary"))).
  - vm_compute. reflexivity.
  - vm_compute. reflexivity.
  - discriminate.
  - left. discriminate.
Defined.

(** C3 as stated fails: a recognized discriminant with a required field of
    the wrong type -- "Comparison" with a number for [ComparisonArray] --
    gets the semantic Fallback, not an echo of the raw text. *)
Lemma wrong_typed_comparison_is_not_echoed :
  JSON.parse example_wrong_array
  = Ok (object [("type", JString (str "Comparison"));
                ("ComparisonArray", JNumber (mkNumber false 5 0))])
  /\ V1.parseOutput example_wrong_array
     = Ok (fallback semantic_fallback_message)
  /\ V1.parseOutput example_wrong_array <> Ok (fallback example_wrong_array).
Proof.
  split; [vm_compute; reflexivity|].
  split; [vm_compute; reflexivity|].
  vm_compute. discriminate.
Qed.

(** The text [null] parses, to a value without discriminant; reading its
    [type] throws inside the try block, and the catch block answers with
    the parse-failure message. *)
Lemma null_gets_parse_failure_message :
  JSON.parse (str "null") = Ok JNull
  /\ V1.parseOutput (str "null") = Ok (fallback parse_failure_message)
  /\ V1.parseOutput (str "null") <> Ok (fallback (str "null")).
Proof.
  split; [vm_compute; reflexivity|].
  split; [vm_compute; reflexivity|].
  vm_compute. discriminate.
Qed.

(** C4, as the code has it.  A text that parses to discriminant
    "Comparison" with a non-empty array, or to discriminant "normal" with a
    non-empty string [output], is answered with the parsed value itself,
    whatever other fields it has. *)
Theorem well_formed_passes_through (output : jsstring) (parsed : value) :
  JSON.parse output = Ok parsed ->
  (Get parsed "type" = Ok (JString (str "Comparison"))
   /\ exists e es, Get parsed "ComparisonArray" = Ok (JArray (e :: es)))
  \/ (Get parsed "type" = Ok (JString (str "normal"))
      /\ exists c s, Get parsed "output" = Ok (JString (c :: s))) ->
  V1.parseOutput output = Ok parsed.
Proof.
  intros Hparse Hshape.
  rewrite parseOutput_cases, Hparse.
  destruct Hshape as [[Htype (e & es & Hfield)] | [Htype (c & s & Hfield)]];
    rewrite (Get_ok_readable _ _ _ Htype);
    rewrite <- (Get_field _ _ _ Htype);
    rewrite <- (Get_field _ _ _ Hfield); reflexivity.
Qed.

Lemma well_formed_passes_through_witness :
  JSON.parse example_comparison = Ok example_comparison_value
  /\ V1.parseOutput example_comparison = Ok example_comparison_value.
Proof.
  split.
  - vm_compute. reflexivity.
  - apply (well_formed_passes_through example_comparison).
    + vm_compute. reflexivity.
    + left. split.
      * vm_compute. reflexivity.
      * eexists. eexists. vm_compute. reflexivity.
Defined.

(** C4 as stated fails: a "normal" value whose [output] is a string, the
    empty one, is not passed through; the raw text is echoed in a
    Fallback. *)
Lemma empty_output_is_not_passed_through :
  JSON.parse example_empty_output
  = Ok (object [("type", JString (str "normal")); ("output", JString [])])
  /\ typeof_string (JString []) = true
  /\ V1.parseOutput example_empty_output = Ok (fallback example_empty_output)
  /\ V1.parseOutput example_empty_output
     <> Ok (object [("type", JString (str "normal")); ("output", JString [])]).
Proof.
  split; [vm_compute; reflexivity|].
  split; [reflexivity|].
  split; [vm_compute; reflexivity|].
  vm_compute. discriminate.
Qed.

(** C5. The first version returns on every text, never throws, and what it
    returns has exactly one of the three canonical shapes. *)
Theorem parseOutput_total (output : jsstring) :
  exists response,
    V1.parseOutput output = Ok response
    /\ (is_Normal response = true /\ is_Comparison response = false
        /\ is_Fallback response = false
        \/ is_Normal response = false /\ is_Comparison response = true
           /\ is_Fallback response = false
        \/ is_Normal response = false /\ is_Comparison response = false
           /\ is_Fallback response = true).
Proof.
  rewrite parseOutput_cases.
  assert (F : forall message, exists response,
             Ok (fallback message) = Ok response
             /\ (is_Normal response = true /\ is_Comparison response = false
                 /\ is_Fallback response = false
                 \/ is_Normal response = false /\ is_Comparison response = true
                    /\ is_Fallback response = false
                 \/ is_Normal response = false
                    /\ is_Comparison response = false
                    /\ is_Fallback response = true)).
  { intros message. exists (fallback message). split; [reflexivity|].
    right. right. apply fallback_is_Fallback. }
  destruct (JSON.parse output) as [parsed|e]; [|apply F].
  destruct (readable parsed); [|apply F].
  destruct (strict_eq_string (field parsed "type") "Comparison") eqn:Ecmp.
  - destruct (length_positive (field parsed "ComparisonArray")) eqn:Elen;
      [|apply F].
    exists parsed. split; [reflexivity|]. right. left.
    destruct (Comparison_is_not_normal _ Ecmp) as [Hn Hf].
    unfold is_Normal, is_Comparison, is_Fallback.
    rewrite Hn, Hf, Ecmp, <- andb_assoc, array_guard_second, Elen.
    repeat split.
  - destruct (strict_eq_string (field parsed "type") "normal") eqn:Enorm;
      [|apply F].
    destruct (nonempty_string (field parsed "output")) eqn:Eout; [|apply F].
    exists parsed. split; [reflexivity|]. left.
    unfold is_Normal, is_Comparison, is_Fallback.
    rewrite Ecmp, Enorm, (normal_is_not_fallback _ Enorm),
      (nonempty_string_typeof _ Eout).
    repeat split.
Qed.

(** C10 as stated fails: on the empty comparison the first version answers
    with the semantic message, the second with the parse-failure message. *)
Lemma versions_differ_on_empty_comparison :
  V1.parseOutput example_empty_comparison
  = Ok (fallback semantic_fallback_message)
  /\ V2.parseOutput example_empty_comparison
     = Ok (fallback parse_failure_message)
  /\ V1.parseOutput example_empty_comparison
     <> V2.parseOutput example_empty_comparison.
Proof.
  split; [vm_compute; reflexivity|].
  split; [vm_compute; reflexivity|].
  vm_compute. discriminate.
Qed.

(** The second version passes an empty-string [output] through, the first
    echoes the raw text. *)
Lemma versions_differ_on_empty_output :
  V1.parseOutput example_empty_output = Ok (fallback example_empty_output)
  /\ V2.parseOutput example_empty_output
     = Ok (object [("type", JString (str "normal")); ("output", JString [])]).
Proof. split; vm_compute; reflexivity. Qed.

(** C10, as the code has it.  The two versions return the same value
    exactly on the texts that fail to parse, that parse to null, or that
    the first version passes through.  Whatever the text, the second
    version returns the parse-failure Fallback or the parsed value. *)
Theorem versions_agree_exactly_when (output : jsstring) :
  (V1.parseOutput output = V2.parseOutput output <->
   match JSON.parse output with
   | Throw _ => True
   | Ok parsed =>
       parsed = JNull
       \/ is_Comparison parsed = true
       \/ is_Normal parsed && nonempty_string (field parsed "output") = true
   end)
  /\ (V2.parseOutput output = Ok (fallback parse_failure_message)
      \/ JSON.parse output = V2.parseOutput output).
Proof.
  rewrite parseOutput_cases, parseOutput_second_cases.
  destruct (JSON.parse output) as [parsed|e] eqn:Hparse;
    [|split; [tauto | left; reflexivity]].
  destruct (readable parsed) eqn:R.
  2: { split; [|left; reflexivity].
       split; [|reflexivity].
       intros _. left. exact (parsed_unreadable_is_null _ _ Hparse R). }
  assert (Hnull : parsed <> JNull) by (intros ->; discriminate R).
  unfold is_Comparison, is_Normal.
  rewrite <- (andb_assoc _ (isArray _)), array_guard_second.
  destruct (strict_eq_string (field parsed "type") "Comparison") eqn:Ecmp.
  - destruct (Comparison_is_not_normal _ Ecmp) as [-> _].
    destruct (length_positive (field parsed "ComparisonArray")); simpl.
    + split; [tauto | right; reflexivity].
    + split; [|left; reflexivity].
      split.
      * intros H. apply Ok_injective, fallback_injective in H.
        discriminate H.
      * intros [H | [H | H]]; [contradiction | discriminate H ..].
  - simpl.
    destruct (strict_eq_string (field parsed "type") "normal") eqn:Enorm;
      simpl.
    + destruct (field parsed "output") as [| | | | [|c s] | |] eqn:Eout;
        simpl;
        try (split; [|left; reflexivity]; split;
             [ intros H; apply Ok_injective in H; exfalso;
               exact (echo_is_not_parse_failure _ _ Hparse H)
             | intros [H | [H | H]]; [contradiction | discriminate H ..] ]).
      * split; [|right; reflexivity]. split.
        -- intros H. apply Ok_injective in H. exfalso.
           exact (fallback_is_not_normal _ _ Enorm H).
        -- intros [H | [H | H]]; [contradiction | discriminate H ..].
      * split; [tauto | right; reflexivity].
    + split; [|left; reflexivity]. split.
      * intros H. apply Ok_injective in H. exfalso.
        exact (echo_is_not_parse_failure _ _ Hparse H).
      * intros [H | [H | H]]; [contradiction | discriminate H ..].
Qed.

(** The second version returns on every text as well. *)
Lemma parseOutput_second_returns (output : jsstring) :
  exists response, V2.parseOutput output = Ok response.
Proof.
  rewrite parseOutput_second_cases.
  repeat match goal with
         | |- context [match ?x with _ => _ end] => destruct x
         end; eauto.
Qed.

(** ** The history formatter *)

Section HistoryFormatter.

Variable env : Environment.

Lemma entry_formats_readable (entry : value) :
  entry_formats env entry = true -> readable entry = true.
Proof.
  unfold entry_formats, entry_failure.
  destruct (readable entry); [reflexivity | discriminate].
Qed.

Lemma format_message_readable (entry : value) :
  entry_formats env entry = true ->
  exists message,
    V1.format_message env entry = Ok message
    /\ filter not_null [message] = formatted_entry env entry.
Proof.
  intros F. pose proof (entry_formats_readable entry F) as R.
  unfold entry_formats, entry_failure in F. rewrite R in F.
  unfold V1.format_message, formatted_entry.
  rewrite (Get_readable _ "type" R). cbn [bind].
  destruct (strict_eq_string (field entry "type") "Comparison").
  { rewrite (Get_readable _ "ComparisonArray" R). cbn [bind].
    destruct (JSON_stringify env (field entry "ComparisonArray"));
      [|discriminate F].
    cbn [bind]. eexists. split; reflexivity. }
  destruct (strict_eq_string (field entry "type") "normal").
  { rewrite (Get_readable _ "output" R). cbn [bind].
    eexists. split; reflexivity. }
  rewrite (Get_readable _ "role" R). cbn [bind].
  destruct (strict_eq_string (field entry "role") "human").
  { rewrite (Get_readable _ "input" R). cbn [bind].
    eexists. split; reflexivity. }
  eexists. split; reflexivity.
Qed.

Lemma format_message_throws (entry : value) (e : exn) :
  entry_failure env entry = Some e ->
  V1.format_message env entry = Throw e.
Proof.
  unfold entry_failure, V1.format_message.
  destruct (readable entry) eqn:R.
  - rewrite (Get_readable _ "type" R). cbn [bind].
    destruct (strict_eq_string (field entry "type") "Comparison");
      [|discriminate].
    rewrite (Get_readable _ "ComparisonArray" R). cbn [bind].
    destruct (JSON_stringify env (field entry "ComparisonArray"));
      [discriminate|].
    intros [= ->]. reflexivity.
  - intros [= <-]. rewrite (Get_unreadable _ _ R). reflexivity.
Qed.

Lemma array_map_format_readable (history : list value) :
  forallb (entry_formats env) history = true ->
  exists mapped,
    array_map (V1.format_message env) history = Ok mapped
    /\ filter not_null mapped = flat_map (formatted_entry env) history.
Proof.
  induction history as [|entry history IH]; intros R.
  - exists []. split; reflexivity.
  - cbn [forallb] in R. apply andb_true_iff in R as [Rentry Rrest].
    destruct (format_message_readable entry Rentry) as (m & Hm & Hfilter).
    destruct (IH Rrest) as (ms & Hms & Hrest).
    exists (m :: ms). split.
    + cbn [array_map]. rewrite Hm. cbn [bind]. rewrite Hms. reflexivity.
    + change (m :: ms) with ([m] ++ ms).
      rewrite filter_app, Hfilter, Hrest. reflexivity.
Qed.

(** A [null] entry makes the formatter throw: the callback reads
    [message.type] first. *)
Lemma null_entry_makes_formatter_throw (before after : list value) :
  forallb (entry_formats env) before = true ->
  V1.formatConversationHistory env (before ++ JNull :: after)
  = Throw TypeError.
Proof.
  intros R. unfold V1.formatConversationHistory.
  destruct (array_map_format_readable before R) as (ms & Hms & _).
  assert (H : array_map (V1.format_message env) (before ++ JNull :: after)
              = Throw TypeError).
  { clear R. revert ms Hms.
    induction before as [|entry before IH]; intros ms Hms; [reflexivity|].
    cbn [app array_map] in *.
    destruct (V1.format_message env entry); [|discriminate Hms].
    cbn [bind] in *.
    destruct (array_map (V1.format_message env) before) as [ms'|];
      [|discriminate Hms].
    rewrite (IH ms' eq_refl). reflexivity. }
  rewrite H. reflexivity.
Qed.

(** On a history on whose entries the callback returns -- none is [null]
    and the serializer returns on the array of each "Comparison" -- the
    formatter returns the concatenation, in order, of what each entry
    contributes: the discriminant is looked at first, then the role. *)
Lemma formatConversationHistory_entrywise (history : list value) :
  forallb (entry_formats env) history = true ->
  V1.formatConversationHistory env history
  = Ok (flat_map (formatted_entry env) history).
Proof.
  intros R. unfold V1.formatConversationHistory.
  destruct (array_map_format_readable history R) as (ms & Hms & Hfilter).
  rewrite Hms. cbn [bind]. rewrite Hfilter. reflexivity.
Qed.

Lemma format_message_result (entry message : value) :
  V1.format_message env entry = Ok message ->
  message = JNull
  \/ exists content,
       message = assistant_message content \/ message = human_message content.
Proof.
  unfold V1.format_message.
  destruct (Get entry "type") as [type|]; [|discriminate]. cbn [bind].
  destruct (strict_eq_string type "Comparison").
  { destruct (Get entry "ComparisonArray") as [array|]; [|discriminate].
    cbn [bind]. destruct (JSON_stringify env array); [|discriminate].
    intros [= <-]. right. eexists. left. reflexivity. }
  destruct (strict_eq_string type "normal").
  { destruct (Get entry "output"); [|discriminate].
    intros [= <-]. right. eexists. left. reflexivity. }
  destruct (Get entry "role") as [role|]; [|discriminate]. cbn [bind].
  destruct (strict_eq_string role "human").
  { destruct (Get entry "input"); [|discriminate].
    intros [= <-]. right. eexists. right. reflexivity. }
  intros [= <-]. left. reflexivity.
Qed.

(** The second version formats a history exactly as the first does. *)
Lemma formatConversationHistory_versions_agree
    (history : list value) :
  V2.formatConversationHistory env history
  = V1.formatConversationHistory env history.
Proof.
  unfold V2.formatConversationHistory, V1.formatConversationHistory.
  change (V2.format_message env) with (V1.format_message env).
  destruct (array_map (V1.format_message env) history) as [ms|e] eqn:E;
    [|reflexivity].
  cbn [bind]. f_equal. revert ms E.
  induction history as [|entry history IH]; intros ms E.
  - injection E as <-. reflexivity.
  - cbn [array_map] in E.
    destruct (V1.format_message env entry) as [m|] eqn:Em; [|discriminate E].
    cbn [bind] in E.
    destruct (array_map (V1.format_message env) history) as [ms'|];
      [|discriminate E].
    injection E as <-. cbn [filter]. rewrite (IH ms' eq_refl).
    assert (Hm : ToBoolean m = not_null m).
    { destruct (format_message_result _ _ Em) as [-> | (c & [-> | ->])];
        reflexivity. }
    rewrite Hm. reflexivity.
Qed.

End HistoryFormatter.

Example sample_history_formatted :
  V1.formatConversationHistory sample_env sample_history
  = Ok [human_message (JString (str "Hi"));
        assistant_message (JString (str "Hello."));
        human_message (JString (str "Compare them"));
        assistant_message (JString (str "Comparison: []"))].
Proof. vm_compute. reflexivity. Qed.

(** The discriminant has precedence over the role: an entry that carries
    both "normal" and "human" becomes an assistant message. *)
Example typed_human_entry_becomes_assistant :
  Get typed_human_entry "role" = Ok (JString (str "human"))
  /\ V1.formatConversationHistory sample_env [typed_human_entry]
     = Ok [assistant_message (JString (str "x"))].
Proof. split; vm_compute; reflexivity. Qed.

(** The serializer's exception leaves the formatter. *)
Example overflow_leaves_formatter :
  V1.formatConversationHistory overflowing_env [stored_comparison]
  = Throw RangeError.
Proof. vm_compute. reflexivity. Qed.

(** C7 fails on a [null] entry.  The callback of the formatter returns
    [null] for an entry it does not recognize and the filter drops it, but
    on the entry [null] itself the read of [message.type] throws: the
    formatter does not return, and the handler answers the turn with
    status 500. *)
Theorem null_entry_breaks_formatter :
  V1.formatConversationHistory sample_env [JNull] = Throw TypeError
  /\ V1.formatConversationHistory sample_env (sample_history ++ [JNull])
     = Throw TypeError
  /\ V1.query_handler sample_env
       (object [("input", JString (str "Hello"));
                ("chat_history", JArray [JNull])])
     = ([InitializeAgent; Respond 500 processing_error], Ok tt).
Proof. repeat split; vm_compute; reflexivity. Qed.

(** ** The handler of POST /query *)

Section Turn.

Variable env : Environment.

(** The run of the first handler, outcome by outcome. *)
Lemma query_handler_cases (body : value) :
  V1.query_handler env body =
  match Get body "input", Get body "chat_history" with
  | Throw e, _ => ([], Throw e)
  | Ok _, Throw e => ([], Throw e)
  | Ok input, Ok chat_history =>
      if negb (ToBoolean input) || negb (isArray chat_history) then
        ([Respond 400 invalid_request], Ok tt)
      else
        match agent_setup env with
        | Throw e => ([InitializeAgent], Throw e)
        | Ok executor =>
            match V1.formatConversationHistory env (elements chat_history) with
            | Throw _ =>
                ([InitializeAgent; Respond 500 processing_error], Ok tt)
            | Ok formatted =>
                match agent_reply env executor input formatted with
                | Throw _ =>
                    ([InitializeAgent; Invoke input formatted;
                      Respond 500 processing_error], Ok tt)
                | Ok raw =>
                    match V1.parseOutput raw with
                    | Throw _ =>
                        ([InitializeAgent; Invoke input formatted;
                          Respond 500 processing_error], Ok tt)
                    | Ok response =>
                        match
                          res_json_stringify env
                            (turn_reply response
                               (elements chat_history
                                ++ [human_turn input; response]))
                        with
                        | Throw _ =>
                            ([InitializeAgent; Invoke input formatted;
                              Respond 500 processing_error], Ok tt)
                        | Ok _ =>
                            ([InitializeAgent; Invoke input formatted;
                              Respond 200
                                (turn_reply response
                                   (elements chat_history
                                    ++ [human_turn input; response]))],
                             Ok tt)
                        end
                    end
                end
            end
        end
  end.
Proof.
  unfold V1.query_handler, V1.initializeAgent.
  destruct (Get body "input") as [input|]; [|reflexivity].
  destruct (Get body "chat_history") as [chat_history|]; [|reflexivity].
  cbn [pure task_bind app].
  destruct (negb (ToBoolean input) || negb (isArray chat_history));
    [reflexivity|].
  destruct (agent_setup env) as [executor|]; [|reflexivity].
  cbn [perform task_bind].
  destruct (V1.formatConversationHistory env (elements chat_history))
    as [formatted|]; [|reflexivity].
  cbn [pure perform task_bind task_try_catch app].
  destruct (agent_reply env executor input formatted) as [raw|];
    [|reflexivity].
  cbn [pure perform task_bind task_try_catch app].
  destruct (V1.parseOutput raw) as [response|]; [|reflexivity].
  unfold res_json, turn_reply, human_turn.
  destruct (res_json_stringify env _); reflexivity.
Qed.

(** A valid request whose collaborators all work, and whose reply
    serializes, is answered with status 200. *)
Lemma valid_turn_succeeds (body input : value)
    (chat_history formatted : list value) (raw : jsstring) :
  Get body "input" = Ok input ->
  ToBoolean input = true ->
  Get body "chat_history" = Ok (JArray chat_history) ->
  agent_setup env = Ok agentExecutor ->
  V1.formatConversationHistory env chat_history = Ok formatted ->
  agent_reply env agentExecutor input formatted = Ok raw ->
  (forall reply, res_json_stringify env reply = Ok tt) ->
  exists response,
    V1.parseOutput raw = Ok response
    /\ V1.query_handler env body
       = ([InitializeAgent; Invoke input formatted;
           Respond 200
             (turn_reply response
                (chat_history ++ [human_turn input; response]))], Ok tt).
Proof.
  intros Hin Htruthy Hhist Hsetup Hformat Hreply Hjson.
  destruct (parseOutput_returns raw) as (response & Hresponse).
  exists response. split; [exact Hresponse|].
  rewrite query_handler_cases, Hin, Hhist, Htruthy.
  cbn [negb orb isArray elements].
  rewrite Hsetup, Hformat, Hreply, Hresponse, Hjson. reflexivity.
Qed.

(** C6. Whenever the first handler answers with status 200, the reply
    holds the request's [chat_history] followed by exactly two new entries,
    the human turn [{ role: "human", input }] and then the normalized
    agent response; every entry of the request's history is at its old
    position, and the reply's [response] is the last entry. *)
Theorem successful_turn_appends_two
    (body reply : value) :
  In (Respond 200 reply) (fst (V1.query_handler env body)) ->
  exists (input response : value) (chat_history formatted : list value)
         (raw : jsstring),
    Get body "input" = Ok input
    /\ Get body "chat_history" = Ok (JArray chat_history)
    /\ V1.formatConversationHistory env chat_history = Ok formatted
    /\ agent_reply env agentExecutor input formatted = Ok raw
    /\ V1.parseOutput raw = Ok response
    /\ reply = turn_reply response
                 (chat_history ++ [human_turn input; response])
    /\ List.length (chat_history ++ [human_turn input; response])
       = (List.length chat_history + 2)%nat
    /\ (forall (i : nat) (entry : value),
          nth_error chat_history i = Some entry ->
          nth_error (chat_history ++ [human_turn input; response]) i
          = Some entry)
    /\ nth_error (chat_history ++ [human_turn input; response])
         (List.length chat_history) = Some (human_turn input)
    /\ nth_error (chat_history ++ [human_turn input; response])
         (S (List.length chat_history)) = Some response.
Proof.
  rewrite query_handler_cases.
  destruct (Get body "input") as [input|]; [|intros []].
  destruct (Get body "chat_history") as [chat_history|]; [|intros []].
  destruct (negb (ToBoolean input) || negb (isArray chat_history)) eqn:Hvalid.
  { intros [H | []]. discriminate H. }
  destruct chat_history as [| | | | | chat_history |];
    try (rewrite orb_true_r in Hvalid; discriminate Hvalid).
  cbn [elements].
  destruct (agent_setup env) as [[]|]; [|intros [H | []]; discriminate H].
  destruct (V1.formatConversationHistory env chat_history)
    as [formatted|] eqn:Hformat;
    [|intros [H | [H | []]]; discriminate H].
  destruct (agent_reply env agentExecutor input formatted)
    as [raw|] eqn:Hreply;
    [|intros [H | [H | [H | []]]]; discriminate H].
  destruct (V1.parseOutput raw) as [response|] eqn:Hresponse;
    [|intros [H | [H | [H | []]]]; discriminate H].
  destruct (res_json_stringify env _);
    [|intros [H | [H | [H | []]]]; discriminate H].
  intros [H | [H | [H | []]]]; try discriminate H.
  injection H as <-.
  exists input, response, chat_history, formatted, raw.
  repeat split; try assumption.
  - rewrite length_app. reflexivity.
  - intros i entry Hi. rewrite nth_error_app1; [exact Hi|].
    apply nth_error_Some. congruence.
  - rewrite nth_error_app2, Nat.sub_diag; [reflexivity | apply Nat.le_refl].
  - rewrite nth_error_app2; [|apply Nat.le_succ_diag_r].
    replace (S (List.length chat_history) - List.length chat_history)%nat
      with 1%nat by lia.
    reflexivity.
Qed.

(** A request that passes the validation is never answered with
    status 400. *)
Lemma accepted_request_is_not_rejected
    (body input chat_history : value) :
  Get body "input" = Ok input ->
  Get body "chat_history" = Ok chat_history ->
  negb (ToBoolean input) || negb (isArray chat_history) = false ->
  ~ rejected (V1.query_handler env body).
Proof.
  intros Hin Hhist Hvalid. unfold rejected.
  rewrite query_handler_cases, Hin, Hhist, Hvalid.
  repeat match goal with
         | |- context [match ?x with Ok _ => _ | Throw _ => _ end] =>
             destruct x
         end;
    cbn [fst In]; intuition discriminate.
Qed.

(** C8, as the code has it.  The first handler rejects a request as
    invalid exactly when [input] is falsy -- absent, null, false, zero or
    the empty string -- or [chat_history] is not an array; a rejected
    request is answered with status 400 and nothing else happens: no
    collaborator is called. *)
Theorem rejects_exactly_falsy_input_or_no_array
    (body input chat_history : value) :
  Get body "input" = Ok input ->
  Get body "chat_history" = Ok chat_history ->
  (rejected (V1.query_handler env body) <->
   ToBoolean input = false \/ isArray chat_history = false)
  /\ (rejected (V1.query_handler env body) ->
      V1.query_handler env body = ([Respond 400 invalid_request], Ok tt)
      /\ filter is_collaborator_call (fst (V1.query_handler env body)) = []).
Proof.
  intros Hin Hhist.
  destruct (negb (ToBoolean input) || negb (isArray chat_history)) eqn:Hvalid.
  - assert (Hrun : V1.query_handler env body
                   = ([Respond 400 invalid_request], Ok tt)).
    { rewrite query_handler_cases, Hin, Hhist, Hvalid. reflexivity. }
    rewrite Hrun. unfold rejected.
    split; [|intros _; split; reflexivity].
    split; [|intros _; left; reflexivity].
    intros _. apply orb_true_iff in Hvalid.
    destruct Hvalid as [H | H]; apply negb_true_iff in H; auto.
  - pose proof (accepted_request_is_not_rejected body input chat_history
                  Hin Hhist Hvalid) as Hnot.
    apply orb_false_iff in Hvalid. destruct Hvalid as [Hi Hc].
    apply negb_false_iff in Hi, Hc.
    split; [|intros H; contradiction].
    split; [intros H; contradiction|].
    intros [H | H]; congruence.
Qed.

(** ** Failing collaborators *)

(** The first handler awaits [initializeAgent] before its try block: when
    the set-up fails, the exception leaves the handler and no response is
    sent. *)
Lemma setup_failure_is_not_caught
    (body input : value) (chat_history : list value)
    (e : exn) :
  Get body "input" = Ok input ->
  ToBoolean input = true ->
  Get body "chat_history" = Ok (JArray chat_history) ->
  agent_setup env = Throw e ->
  V1.query_handler env body = ([InitializeAgent], Throw e).
Proof.
  intros Hin Htruthy Hhist Hsetup.
  rewrite query_handler_cases, Hin, Hhist, Htruthy, Hsetup. reflexivity.
Qed.

(** A failure inside the try block of the first handler -- the formatter
    or the agent's invocation -- is answered with the processing error. *)
Lemma invocation_failure_gives_processing_error
    (body input : value)
    (chat_history formatted : list value) (e : exn) :
  Get body "input" = Ok input ->
  ToBoolean input = true ->
  Get body "chat_history" = Ok (JArray chat_history) ->
  agent_setup env = Ok agentExecutor ->
  V1.formatConversationHistory env chat_history = Ok formatted ->
  agent_reply env agentExecutor input formatted = Throw e ->
  V1.query_handler env body
  = ([InitializeAgent; Invoke input formatted; Respond 500 processing_error],
     Ok tt).
Proof.
  intros Hin Htruthy Hhist Hsetup Hformat Hreply.
  rewrite query_handler_cases, Hin, Hhist, Htruthy.
  cbn [negb orb isArray elements].
  rewrite Hsetup, Hformat, Hreply. reflexivity.
Qed.

Lemma formatter_failure_gives_processing_error
    (body input : value) (chat_history : list value)
    (e : exn) :
  Get body "input" = Ok input ->
  ToBoolean input = true ->
  Get body "chat_history" = Ok (JArray chat_history) ->
  agent_setup env = Ok agentExecutor ->
  V1.formatConversationHistory env chat_history = Throw e ->
  V1.query_handler env body
  = ([InitializeAgent; Respond 500 processing_error], Ok tt).
Proof.
  intros Hin Htruthy Hhist Hsetup Hformat.
  rewrite query_handler_cases, Hin, Hhist, Htruthy.
  cbn [negb orb isArray elements].
  rewrite Hsetup, Hformat. reflexivity.
Qed.

(** The second handler has [initializeAgent] inside its try block: a
    failing set-up is answered with the processing error. *)
Lemma second_handler_catches_setup_failure
    (body input : value) (chat_history : list value)
    (e : exn) :
  Get body "input" = Ok input ->
  ToBoolean input = true ->
  Get body "chat_history" = Ok (JArray chat_history) ->
  agent_setup env = Throw e ->
  V2.query_handler env body
  = ([InitializeAgent; Respond 500 processing_error], Ok tt).
Proof.
  intros Hin Htruthy Hhist Hsetup.
  unfold V2.query_handler, V2.initializeAgent.
  rewrite Hin, Hhist. cbn [pure task_bind app].
  rewrite Htruthy, Hsetup. reflexivity.
Qed.

End Turn.

Lemma successful_turn_appends_two_witness :
  In (Respond 200 sample_reply)
     (fst (V1.query_handler sample_env sample_body_with_history))
  /\ exists (input response : value) (chat_history : list value),
       sample_reply
       = turn_reply response (chat_history ++ [human_turn input; response]).
Proof.
  assert (H : In (Respond 200 sample_reply)
                 (fst (V1.query_handler sample_env sample_body_with_history))).
  { vm_compute. right. right. left. reflexivity. }
  split; [exact H|].
  destruct (successful_turn_appends_two _ _ _ H)
    as (input & response & chat_history & formatted & raw
        & _ & _ & _ & _ & _ & Hreply & _).
  exists input, response, chat_history. exact Hreply.
Defined.

Lemma rejects_exactly_falsy_input_or_no_array_witness :
  rejected (V1.query_handler sample_env body_without_history)
  /\ V1.query_handler sample_env body_without_history
     = ([Respond 400 invalid_request], Ok tt).
Proof.
  destruct (rejects_exactly_falsy_input_or_no_array
              sample_env body_without_history
              (JString (str "Hello")) JUndefined)
    as [Hiff Hquiet].
  - vm_compute. reflexivity.
  - vm_compute. reflexivity.
  - assert (H : rejected (V1.query_handler sample_env body_without_history)).
    { apply Hiff. right. reflexivity. }
    split; [exact H | exact (proj1 (Hquiet H))].
Defined.

(** C8 as stated fails: the number 5 is not a non-empty string, yet a
    request with [input: 5] and an array for [chat_history] is not
    rejected: the agent is set up and invoked. *)
Lemma numeric_input_is_not_rejected :
  Get body_with_numeric_input "input" = Ok (JNumber (mkNumber false 5 0))
  /\ nonempty_string (JNumber (mkNumber false 5 0)) = false
  /\ ~ rejected (V1.query_handler sample_env body_with_numeric_input)
  /\ In InitializeAgent
        (fst (V1.query_handler sample_env body_with_numeric_input)).
Proof.
  split; [vm_compute; reflexivity|].
  split; [reflexivity|].
  split.
  - unfold rejected. vm_compute. intros [H | [H | [H | []]]]; discriminate H.
  - vm_compute. left. reflexivity.
Qed.

(** C9 fails in the first handler.  With a set-up that fails, a valid
    request gets no response at all from the first handler: the exception
    escapes it.  The second handler answers the same request with status
    500 and the processing error. *)
Theorem setup_failure_escapes_first_handler :
  agent_setup failing_setup_env = Throw setup_failure
  /\ V1.query_handler failing_setup_env sample_body
     = ([InitializeAgent], Throw setup_failure)
  /\ V2.query_handler failing_setup_env sample_body
     = ([InitializeAgent; Respond 500 processing_error], Ok tt).
Proof.
  split; [reflexivity|]. split.
  - apply (setup_failure_is_not_caught failing_setup_env sample_body
             (JString (str "Hello")) []); vm_compute; reflexivity.
  - apply (second_handler_catches_setup_failure failing_setup_env sample_body
             (JString (str "Hello")) [] setup_failure);
      vm_compute; reflexivity.
Qed.

(** ** The end-to-end examples of the specification *)

Example hello_on_empty_history :
  V1.query_handler sample_env sample_body
  = ([InitializeAgent;
      Invoke (JString (str "Hello")) [];
      Respond 200
        (turn_reply sample_response
           [human_turn (JString (str "Hello")); sample_response])],
     Ok tt).
Proof. vm_compute. reflexivity. Qed.

Example normal_text_is_unchanged :
  JSON.parse example_normal = Ok sample_response
  /\ V1.parseOutput example_normal = Ok sample_response.
Proof. split; vm_compute; reflexivity. Qed.

Example empty_comparison_text :
  V1.parseOutput example_empty_comparison
  = Ok (fallback semantic_fallback_message).
Proof. vm_compute. reflexivity. Qed.

Example not_json_text :
  V1.parseOutput example_not_json = Ok (fallback parse_failure_message).
Proof. vm_compute. reflexivity. Qed.

Example history_that_is_not_an_array :
  V1.query_handler sample_env
    (object [("input", JString (str "Hello"));
             ("chat_history", JString (str "none"))])
  = ([Respond 400 invalid_request], Ok tt).
Proof. vm_compute. reflexivity. Qed.

Example null_entry_in_history :
  V1.query_handler sample_env
    (object [("input", JString (str "Hello"));
             ("chat_history", JArray [JNull])])
  = ([InitializeAgent; Respond 500 processing_error], Ok tt).
Proof. vm_compute. reflexivity. Qed.

Example reply_that_does_not_serialize :
  V1.query_handler overflowing_env sample_body
  = ([InitializeAgent;
      Invoke (JString (str "Hello")) [];
      Respond 500 processing_error],
     Ok tt).
Proof. vm_compute. reflexivity. Qed.

(** * Further properties of the two versions *)

(** ** The normalizers *)

(** X1. The second version of the normalizer returns on every text and
    never throws.  What it returns is either the Fallback with the fixed
    parse-failure message -- its only fallback -- or the parsed value, and
    then the parsed value is a Normal or a Comparison; the three cases
    exclude each other. *)
Theorem second_parseOutput_total (output : jsstring) :
  exists response,
    V2.parseOutput output = Ok response
    /\ (response = fallback parse_failure_message
        /\ is_Fallback response = true
        \/ JSON.parse output = Ok response
           /\ is_Normal response = true /\ is_Comparison response = false
           /\ is_Fallback response = false
        \/ JSON.parse output = Ok response
           /\ is_Normal response = false /\ is_Comparison response = true
           /\ is_Fallback response = false).
Proof.
  rewrite parseOutput_second_cases.
  assert (F : exists response,
             Ok (fallback parse_failure_message) = Ok response
             /\ (response = fallback parse_failure_message
                 /\ is_Fallback response = true
                 \/ JSON.parse output = Ok response
                    /\ is_Normal response = true
                    /\ is_Comparison response = false
                    /\ is_Fallback response = false
                 \/ JSON.parse output = Ok response
                    /\ is_Normal response = false
                    /\ is_Comparison response = true
                    /\ is_Fallback response = false)).
  { exists (fallback parse_failure_message). split; [reflexivity|].
    left. split; reflexivity. }
  destruct (JSON.parse output) as [parsed|e] eqn:Hparse; [|exact F].
  destruct (readable parsed); [|exact F].
  destruct (strict_eq_string (field parsed "type") "Comparison") eqn:Ecmp.
  - destruct (shapes_of_Comparison _ Ecmp) as (Hn & Hc & Hf).
    destruct (Comparison_is_not_normal _ Ecmp) as [-> _].
    destruct (length_positive (field parsed "ComparisonArray")) eqn:Elen;
      cbn [andb]; [|exact F].
    exists parsed. split; [reflexivity|]. right. right.
    rewrite Hn, Hc, Hf. repeat split.
  - cbn [andb].
    destruct (strict_eq_string (field parsed "type") "normal") eqn:Enorm;
      cbn [andb]; [|exact F].
    destruct (shapes_of_normal _ Ecmp Enorm) as (Hn & Hc & Hf).
    destruct (typeof_string (field parsed "output")) eqn:Eout; [|exact F].
    exists parsed. split; [reflexivity|]. right. left.
    rewrite Hn, Hc, Hf. repeat split.
Qed.

(** X2. The second version decides by the shape of the parsed value alone:
    a Comparison (non-empty array) or a Normal (an [output] of type string,
    the empty string included) is returned as parsed, with all its fields;
    every other parsed value, null included, is answered with the
    parse-failure Fallback.  The raw text is never echoed. *)
Theorem second_parseOutput_by_shape (output : jsstring) (parsed : value) :
  JSON.parse output = Ok parsed ->
  V2.parseOutput output
  = Ok (if is_Comparison parsed || is_Normal parsed
        then parsed
        else fallback parse_failure_message).
Proof.
  intros Hparse. rewrite parseOutput_second_cases, Hparse.
  destruct (readable parsed) eqn:R.
  2: { destruct (unreadable_has_no_shape _ R) as (-> & -> & _).
       reflexivity. }
  destruct (strict_eq_string (field parsed "type") "Comparison") eqn:Ecmp.
  - destruct (shapes_of_Comparison _ Ecmp) as (-> & -> & _).
    destruct (Comparison_is_not_normal _ Ecmp) as [-> _].
    destruct (length_positive (field parsed "ComparisonArray")); reflexivity.
  - cbn [andb].
    destruct (strict_eq_string (field parsed "type") "normal") eqn:Enorm.
    + destruct (shapes_of_normal _ Ecmp Enorm) as (-> & -> & _).
      destruct (typeof_string (field parsed "output")); reflexivity.
    + destruct (shapes_of_other _ Ecmp Enorm) as (-> & ->). reflexivity.
Qed.

Lemma second_parseOutput_by_shape_witness :
  JSON.parse example_empty_output
  = Ok (object [("type", JString (str "normal")); ("output", JString [])])
  /\ V2.parseOutput example_empty_output
     = Ok (object [("type", JString (str "normal")); ("output", JString [])]).
Proof.
  split.
  - vm_compute. reflexivity.
  - apply (second_parseOutput_by_shape example_empty_output
             (object [("type", JString (str "normal"));
                      ("output", JString [])])).
    vm_compute. reflexivity.
Defined.


(** ** The formatters *)

Section FormatterProperties.

Variable env : Environment.

Lemma array_map_app {A B : Type} (f : A -> result B) (xs ys : list A) :
  array_map f (xs ++ ys)
  = (let! xs' := array_map f xs in
     let! ys' := array_map f ys in
     Ok (xs' ++ ys')).
Proof.
  induction xs as [|x xs IH]; cbn [app array_map bind].
  - destruct (array_map f ys); reflexivity.
  - destruct (f x) as [y|]; [|reflexivity]. cbn [bind]. rewrite IH.
    destruct (array_map f xs) as [xs'|]; [|reflexivity]. cbn [bind].
    destruct (array_map f ys); reflexivity.
Qed.

Lemma formatConversationHistory_app (before after : list value) :
  V1.formatConversationHistory env (before ++ after)
  = (let! first := V1.formatConversationHistory env before in
     let! second := V1.formatConversationHistory env after in
     Ok (first ++ second)).
Proof.
  unfold V1.formatConversationHistory. rewrite array_map_app.
  destruct (array_map (V1.format_message env) before) as [ms|];
    [|reflexivity].
  cbn [bind].
  destruct (array_map (V1.format_message env) after) as [ms'|];
    [|reflexivity].
  cbn [bind]. rewrite filter_app. reflexivity.
Qed.

Lemma array_map_format_outcome (history : list value) :
  match array_map (V1.format_message env) history with
  | Ok _ => forallb (entry_formats env) history = true
  | Throw e =>
      exists before entry after,
        history = before ++ entry :: after
        /\ forallb (entry_formats env) before = true
        /\ entry_failure env entry = Some e
  end.
Proof.
  induction history as [|entry history IH]; [reflexivity|].
  cbn [array_map forallb].
  destruct (entry_failure env entry) as [e|] eqn:F.
  - rewrite (format_message_throws env entry e F). cbn [bind].
    exists [], entry, history. auto.
  - assert (Fb : entry_formats env entry = true).
    { unfold entry_formats. rewrite F. reflexivity. }
    destruct (format_message_readable env entry Fb) as (m & -> & _).
    cbn [bind]. rewrite Fb.
    destruct (array_map (V1.format_message env) history) as [ms|e].
    + exact IH.
    + destruct IH as (before & bad & after & -> & Hbefore & Hbad).
      exists (entry :: before), bad, after.
      cbn [app forallb]. rewrite Fb, Hbefore. auto.
Qed.

(** X4. The first formatter throws exactly when its callback throws on
    some entry -- the entry is [null], a TypeError, or it is a
    "Comparison" on whose array the serializer throws -- and what it
    throws is the exception of the first such entry; it returns exactly
    when there is no such entry. *)
Theorem formatter_throws_at_first_failing_entry
    (history : list value) (e : exn) :
  (V1.formatConversationHistory env history = Throw e <->
   exists before entry after,
     history = before ++ entry :: after
     /\ forallb (entry_formats env) before = true
     /\ entry_failure env entry = Some e)
  /\ ((exists formatted, V1.formatConversationHistory env history = Ok formatted)
      <-> forallb (entry_formats env) history = true).
Proof.
  unfold V1.formatConversationHistory.
  pose proof (array_map_format_outcome history) as H.
  split; split.
  - destruct (array_map (V1.format_message env) history) as [ms|e'];
      [discriminate|].
    intros [= <-]. exact H.
  - intros (before & entry & after & -> & Hbefore & Hentry).
    rewrite array_map_app.
    destruct (array_map_format_readable env before Hbefore) as (ms & -> & _).
    cbn [bind array_map].
    rewrite (format_message_throws env entry e Hentry). reflexivity.
  - destruct (array_map (V1.format_message env) history) as [ms|e'];
      [intros _; exact H | intros [formatted Hf]; discriminate Hf].
  - intros Hall.
    destruct (array_map_format_readable env history Hall) as (ms & -> & _).
    eexists. reflexivity.
Qed.

(** X5. Formatting goes entry by entry and keeps the order: the formatted
    history of a concatenation is the concatenation of the formatted
    histories, and it throws when either part does. *)
Theorem formatter_distributes_over_append (before after : list value) :
  V1.formatConversationHistory env (before ++ after)
  = (let! first := V1.formatConversationHistory env before in
     let! second := V1.formatConversationHistory env after in
     Ok (first ++ second)).
Proof.
  unfold V1.formatConversationHistory. rewrite array_map_app.
  destruct (array_map (V1.format_message env) before) as [first|];
    [|reflexivity].
  cbn [bind].
  destruct (array_map (V1.format_message env) after) as [second|];
    [|reflexivity].
  cbn [bind]. rewrite filter_app. reflexivity.
Qed.

(** X6. A formatted history never holds [null]: each of its messages is an
    object [{ role, content }] with role "assistant" or "human"; and it is
    never longer than the stored history, since an entry gives at most one
    message. *)
Theorem formatted_history_invariant (history formatted : list value) :
  V1.formatConversationHistory env history = Ok formatted ->
  (List.length formatted <= List.length history)%nat
  /\ Forall (fun message =>
               exists content,
                 message = assistant_message content
                 \/ message = human_message content) formatted.
Proof.
  unfold V1.formatConversationHistory.
  destruct (array_map (V1.format_message env) history) as [mapped|] eqn:E;
    [|discriminate].
  cbn [bind]. intros [= <-]. revert mapped E.
  induction history as [|entry history IH]; intros mapped E.
  - injection E as <-. split; [apply Nat.le_refl | constructor].
  - cbn [array_map] in E.
    destruct (V1.format_message env entry) as [m|] eqn:Em; [|discriminate E].
    cbn [bind] in E.
    destruct (array_map (V1.format_message env) history) as [ms|];
      [|discriminate E].
    injection E as <-. destruct (IH ms eq_refl) as [Hlen Hall].
    cbn [filter List.length].
    destruct (format_message_result env _ _ Em) as [-> | (content & Hm)].
    + cbn [not_null]. split; [lia | exact Hall].
    + assert (Hnn : not_null m = true) by (destruct Hm as [-> | ->]; reflexivity).
      rewrite Hnn. cbn [List.length]. split; [lia|].
      constructor; [exists content; exact Hm | exact Hall].
Qed.

End FormatterProperties.

Lemma formatted_history_invariant_witness :
  (List.length
     [human_message (JString (str "Hi"));
      assistant_message (JString (str "Hello."));
      human_message (JString (str "Compare them"));
      assistant_message (JString (str "Comparison: []"))]
   <= List.length sample_history)%nat.
Proof.
  apply (formatted_history_invariant sample_env sample_history).
  vm_compute. reflexivity.
Defined.

Section FormatterOfResponses.

Variable env : Environment.

(** X7. What the first normalizer returns is never [null], so the
    formatter can read it in a later turn, and it treats it by its shape:
    a Fallback is dropped; a Normal becomes an assistant message with its
    [output]; a Comparison becomes an assistant message "Comparison: "
    followed by the serialization of its array -- or, when the serializer
    throws on that array, the formatter throws the same exception. *)
Theorem normalized_response_formats (raw : jsstring) :
  exists response,
    V1.parseOutput raw = Ok response
    /\ V1.formatConversationHistory env [response]
       = (if is_Fallback response then Ok []
          else if is_Comparison response then
            let! text :=
              JSON_stringify env (field response "ComparisonArray") in
            Ok [assistant_message
                  (JString (str "Comparison: " ++ interpolate text))]
          else Ok [assistant_message (field response "output")]).
Proof.
  rewrite parseOutput_cases.
  assert (F : forall message, exists response,
             Ok (fallback message) = Ok response
             /\ V1.formatConversationHistory env [response]
                = (if is_Fallback response then Ok []
                   else if is_Comparison response then
                     let! text :=
                       JSON_stringify env
                         (field response "ComparisonArray") in
                     Ok [assistant_message
                           (JString (str "Comparison: "
                                     ++ interpolate text))]
                   else Ok [assistant_message (field response "output")])).
  { intros message. exists (fallback message). split; reflexivity. }
  destruct (JSON.parse raw) as [parsed|]; [|apply F].
  destruct (readable parsed) eqn:R; [|apply F].
  destruct (strict_eq_string (field parsed "type") "Comparison") eqn:Ecmp.
  - destruct (length_positive (field parsed "ComparisonArray")) eqn:Elen;
      [|apply F].
    exists parsed. split; [reflexivity|].
    destruct (shapes_of_Comparison _ Ecmp) as (_ & -> & ->).
    rewrite Elen.
    unfold V1.formatConversationHistory, V1.format_message.
    cbn [array_map]. rewrite (Get_readable _ "type" R). cbn [bind].
    rewrite Ecmp, (Get_readable _ "ComparisonArray" R). cbn [bind].
    destruct (JSON_stringify env (field parsed "ComparisonArray"));
      reflexivity.
  - destruct (strict_eq_string (field parsed "type") "normal") eqn:Enorm;
      [|apply F].
    destruct (nonempty_string (field parsed "output")) eqn:Eout; [|apply F].
    exists parsed. split; [reflexivity|].
    destruct (shapes_of_normal _ Ecmp Enorm) as (_ & -> & ->).
    unfold V1.formatConversationHistory, V1.format_message.
    cbn [array_map]. rewrite (Get_readable _ "type" R). cbn [bind].
    rewrite Ecmp, Enorm, (Get_readable _ "output" R). reflexivity.
Qed.

(** X8. The second formatter, which filters with [Boolean], gives on every
    history what the first, which filters with [msg !== null], gives: the
    same messages, or the same exception. *)
Theorem second_formatter_agrees_with_first (history : list value) :
  V2.formatConversationHistory env history
  = V1.formatConversationHistory env history.
Proof. exact (formatConversationHistory_versions_agree env history). Qed.

End FormatterOfResponses.

Section HandlerProperties.

Variable env : Environment.

(** The run of the second handler, outcome by outcome. *)
Lemma second_query_handler_cases (body : value) :
  V2.query_handler env body =
  match Get body "input", Get body "chat_history" with
  | Throw e, _ => ([], Throw e)
  | Ok _, Throw e => ([], Throw e)
  | Ok input, Ok chat_history =>
      if negb (ToBoolean input) || negb (isArray chat_history) then
        ([Respond 400 invalid_request], Ok tt)
      else
        match agent_setup env with
        | Throw _ => ([InitializeAgent; Respond 500 processing_error], Ok tt)
        | Ok executor =>
            match V2.formatConversationHistory env (elements chat_history) with
            | Throw _ =>
                ([InitializeAgent; Respond 500 processing_error], Ok tt)
            | Ok formatted =>
                match agent_reply env executor input formatted with
                | Throw _ =>
                    ([InitializeAgent; Invoke input formatted;
                      Respond 500 processing_error], Ok tt)
                | Ok raw =>
                    match V2.parseOutput raw with
                    | Throw _ =>
                        ([InitializeAgent; Invoke input formatted;
                          Respond 500 processing_error], Ok tt)
                    | Ok response =>
                        match
                          res_json_stringify env
                            (turn_reply response
                               (elements chat_history
                                ++ [human_turn input; response]))
                        with
                        | Throw _ =>
                            ([InitializeAgent; Invoke input formatted;
                              Respond 500 processing_error], Ok tt)
                        | Ok _ =>
                            ([InitializeAgent; Invoke input formatted;
                              Respond 200
                                (turn_reply response
                                   (elements chat_history
                                    ++ [human_turn input; response]))],
                             Ok tt)
                        end
                    end
                end
            end
        end
  end.
Proof.
  unfold V2.query_handler, V2.initializeAgent.
  destruct (Get body "input") as [input|]; [|reflexivity].
  destruct (Get body "chat_history") as [chat_history|]; [|reflexivity].
  cbn [pure task_bind app].
  destruct (negb (ToBoolean input) || negb (isArray chat_history));
    [reflexivity|].
  destruct (agent_setup env) as [executor|]; [|reflexivity].
  cbn [perform pure task_bind task_try_catch app].
  destruct (V2.formatConversationHistory env (elements chat_history))
    as [formatted|]; [|reflexivity].
  cbn [pure perform task_bind task_try_catch app].
  destruct (agent_reply env executor input formatted) as [raw|];
    [|reflexivity].
  cbn [pure perform task_bind task_try_catch app].
  destruct (V2.parseOutput raw) as [response|]; [|reflexivity].
  unfold res_json, turn_reply, human_turn.
  destruct (res_json_stringify env _); reflexivity.
Qed.

Lemma valid_request_passes (input : value) (chat_history : list value) :
  ToBoolean input = true ->
  negb (ToBoolean input) || negb (isArray (JArray chat_history)) = false.
Proof. intros ->. reflexivity. Qed.

Lemma passes_is_valid (input chat_history : value) :
  negb (ToBoolean input) || negb (isArray chat_history) = false ->
  ToBoolean input = true
  /\ exists entries, chat_history = JArray entries.
Proof.
  intros H. apply orb_false_iff in H. destruct H as [Hi Hc].
  apply negb_false_iff in Hi, Hc. split; [exact Hi|].
  destruct chat_history; try discriminate Hc. eauto.
Qed.

(** X10. The agent is invoked only for a request that passed the
    validation and after the set-up succeeded; it is invoked with the
    request's [input] and with the formatted [chat_history], and the
    set-up is the only call before it. *)
Theorem agent_invoked_only_after_setup
    (body input : value) (formatted : list value) :
  In (Invoke input formatted) (fst (V1.query_handler env body)) ->
  exists (chat_history : list value) (rest : list event),
    Get body "input" = Ok input
    /\ ToBoolean input = true
    /\ Get body "chat_history" = Ok (JArray chat_history)
    /\ agent_setup env = Ok agentExecutor
    /\ V1.formatConversationHistory env chat_history = Ok formatted
    /\ fst (V1.query_handler env body)
       = InitializeAgent :: Invoke input formatted :: rest.
Proof.
  rewrite query_handler_cases.
  destruct (Get body "input") as [input'|]; [|intros []].
  destruct (Get body "chat_history") as [chat_history|]; [|intros []].
  destruct (negb (ToBoolean input') || negb (isArray chat_history))
    eqn:Hvalid.
  { intros [H | []]. discriminate H. }
  destruct (passes_is_valid _ _ Hvalid) as [Htruthy [entries ->]].
  cbn [elements].
  destruct (agent_setup env) as [[]|] eqn:Hsetup;
    [|intros [H | []]; discriminate H].
  destruct (V1.formatConversationHistory env entries)
    as [formatted'|] eqn:Hformat;
    [|intros [H | [H | []]]; discriminate H].
  assert (Hsame : forall rest,
             In (Invoke input formatted)
                (InitializeAgent :: Invoke input' formatted' :: rest) ->
             (forall ev, In ev rest -> is_collaborator_call ev = false) ->
             input' = input /\ formatted' = formatted).
  { intros rest [H | [H | H]] Hrest; [discriminate H | |].
    - injection H as -> ->. split; reflexivity.
    - apply Hrest in H. discriminate H. }
  destruct (agent_reply env agentExecutor input' formatted') as [raw|].
  - destruct (V1.parseOutput raw) as [response|];
      [destruct (res_json_stringify env _)|]; cbn [fst]; intros H;
      (apply Hsame in H;
       [ destruct H as [-> ->]; exists entries; eexists;
         repeat split; assumption
       | intros ev [<- | []]; reflexivity ]).
  - cbn [fst]. intros H.
    apply Hsame in H;
      [ destruct H as [-> ->]; exists entries; eexists;
        repeat split; assumption
      | intros ev [<- | []]; reflexivity ].
Qed.

(** X11. A run of the first handler calls the set-up at most once, then
    the agent at most once, then sends at most one response, and nothing
    after it.  It sends a response, with status 400, 200 or 500, exactly
    when no exception leaves it. *)
Theorem first_handler_event_order (body : value) :
  exists (calls responses : list event),
    fst (V1.query_handler env body) = calls ++ responses
    /\ (calls = []
        \/ calls = [InitializeAgent]
        \/ exists input formatted,
             calls = [InitializeAgent; Invoke input formatted])
    /\ match snd (V1.query_handler env body) with
       | Ok _ =>
           exists status reply,
             responses = [Respond status reply]
             /\ (status = 400 \/ status = 200 \/ status = 500)
       | Throw _ => responses = []
       end.
Proof.
  rewrite query_handler_cases.
  destruct (Get body "input") as [input|];
    [|exists [], []; cbn [fst snd]; auto].
  destruct (Get body "chat_history") as [chat_history|];
    [|exists [], []; cbn [fst snd]; auto].
  destruct (negb (ToBoolean input) || negb (isArray chat_history)).
  { exists [], [Respond 400 invalid_request]. cbn [fst snd].
    split; [reflexivity|]. split; [left; reflexivity|].
    exists 400, invalid_request. auto. }
  destruct (agent_setup env) as [executor|];
    [|exists [InitializeAgent], []; cbn [fst snd]; auto].
  destruct (V1.formatConversationHistory env (elements chat_history))
    as [formatted|].
  2: { exists [InitializeAgent], [Respond 500 processing_error].
       cbn [fst snd]. split; [reflexivity|]. split; [auto|].
       exists 500, processing_error. auto. }
  assert (Hcalls : [InitializeAgent; Invoke input formatted] = []
                   \/ [InitializeAgent; Invoke input formatted]
                      = [InitializeAgent]
                   \/ exists input' formatted',
                        [InitializeAgent; Invoke input formatted]
                        = [InitializeAgent; Invoke input' formatted']).
  { right. right. eauto. }
  destruct (agent_reply env executor input formatted) as [raw|];
    [destruct (V1.parseOutput raw) as [response|];
       [destruct (res_json_stringify env _)|]|];
    cbn [fst snd];
    exists [InitializeAgent; Invoke input formatted]; eexists;
    (split; [reflexivity|]); (split; [exact Hcalls|]);
    eexists; eexists; (split; [reflexivity|]); auto.
Qed.


(** X13. For a request that passes the validation, the second handler
    answers with status 500 and the processing error exactly when a step
    inside its try block throws: [initializeAgent] rejects, the formatter
    throws, the invocation of the agent rejects, or [res.json] cannot
    serialize the reply. *)
Theorem second_handler_processing_error_iff
    (body input : value) (chat_history : list value) :
  Get body "input" = Ok input ->
  ToBoolean input = true ->
  Get body "chat_history" = Ok (JArray chat_history) ->
  (In (Respond 500 processing_error) (fst (V2.query_handler env body)) <->
   (exists e, agent_setup env = Throw e)
   \/ (exists e, V2.formatConversationHistory env chat_history = Throw e)
   \/ (exists formatted e,
         V2.formatConversationHistory env chat_history = Ok formatted
         /\ agent_reply env agentExecutor input formatted = Throw e)
   \/ (exists formatted raw response e,
         V2.formatConversationHistory env chat_history = Ok formatted
         /\ agent_reply env agentExecutor input formatted = Ok raw
         /\ V2.parseOutput raw = Ok response
         /\ res_json_stringify env
              (turn_reply response
                 (chat_history ++ [human_turn input; response]))
            = Throw e)).
Proof.
  intros Hin Htruthy Hhist.
  rewrite second_query_handler_cases, Hin, Hhist.
  rewrite (valid_request_passes _ _ Htruthy). cbn [elements].
  destruct (agent_setup env) as [[]|e0].
  2: { cbn [fst In]. split; [eauto | auto]. }
  destruct (V2.formatConversationHistory env chat_history)
    as [formatted|e1].
  2: { cbn [fst In]. split; [eauto | auto]. }
  destruct (agent_reply env agentExecutor input formatted) as [raw|e2] eqn:Hr.
  2: { cbn [fst In]. split; [intros _; right; right; left; eauto | auto]. }
  destruct (parseOutput_second_returns raw) as (response & Hresponse).
  rewrite Hresponse.
  destruct (res_json_stringify env
              (turn_reply response
                 (chat_history ++ [human_turn input; response])))
    as [[]|e3] eqn:Hjson.
  - cbn [fst In]. split.
    + intros [H | [H | [H | []]]]; discriminate H.
    + intros [[e H] | [[e H] | [(formatted' & e & H & H')
                                | (formatted' & raw' & response' & e
                                   & H & H1 & H2 & H3)]]];
        try discriminate H.
      * injection H as <-. rewrite Hr in H'. discriminate H'.
      * injection H as <-. rewrite Hr in H1. injection H1 as <-.
        rewrite Hresponse in H2. injection H2 as <-.
        rewrite Hjson in H3. discriminate H3.
  - cbn [fst In]. split; [|auto].
    intros _. right. right. right.
    exists formatted, raw, response, e3. auto.
Qed.

(** X14. For a request that passes the validation, the first handler
    answers with status 500 and the processing error exactly when
    [initializeAgent] succeeded and a step inside the try block throws:
    the formatter, the invocation of the agent, or [res.json] on the
    reply.  A rejected [initializeAgent] is not among the causes. *)
Theorem first_handler_processing_error_iff
    (body input : value) (chat_history : list value) :
  Get body "input" = Ok input ->
  ToBoolean input = true ->
  Get body "chat_history" = Ok (JArray chat_history) ->
  (In (Respond 500 processing_error) (fst (V1.query_handler env body)) <->
   agent_setup env = Ok agentExecutor
   /\ ((exists e, V1.formatConversationHistory env chat_history = Throw e)
       \/ (exists formatted e,
             V1.formatConversationHistory env chat_history = Ok formatted
             /\ agent_reply env agentExecutor input formatted = Throw e)
       \/ (exists formatted raw response e,
             V1.formatConversationHistory env chat_history = Ok formatted
             /\ agent_reply env agentExecutor input formatted = Ok raw
             /\ V1.parseOutput raw = Ok response
             /\ res_json_stringify env
                  (turn_reply response
                     (chat_history ++ [human_turn input; response]))
                = Throw e))).
Proof.
  intros Hin Htruthy Hhist.
  rewrite query_handler_cases, Hin, Hhist.
  rewrite (valid_request_passes _ _ Htruthy). cbn [elements].
  destruct (agent_setup env) as [[]|e0].
  2: { cbn [fst In]. split.
       - intros [H | []]. discriminate H.
       - intros [H _]. discriminate H. }
  destruct (V1.formatConversationHistory env chat_history)
    as [formatted|e1].
  2: { cbn [fst In]. split; [eauto | auto]. }
  destruct (agent_reply env agentExecutor input formatted) as [raw|e2] eqn:Hr.
  2: { cbn [fst In].
       split; [intros _; split; [reflexivity|]; right; left; eauto | auto]. }
  destruct (parseOutput_returns raw) as (response & Hresponse).
  rewrite Hresponse.
  destruct (res_json_stringify env
              (turn_reply response
                 (chat_history ++ [human_turn input; response])))
    as [[]|e3] eqn:Hjson.
  - cbn [fst In]. split.
    + intros [H | [H | [H | []]]]; discriminate H.
    + intros [_ [[e H] | [(formatted' & e & H & H')
                         | (formatted' & raw' & response' & e
                            & H & H1 & H2 & H3)]]];
        try discriminate H.
      * injection H as <-. rewrite Hr in H'. discriminate H'.
      * injection H as <-. rewrite Hr in H1. injection H1 as <-.
        rewrite Hresponse in H2. injection H2 as <-.
        rewrite Hjson in H3. discriminate H3.
  - cbn [fst In]. split; [|auto].
    intros _. split; [reflexivity|]. right. right.
    exists formatted, raw, response, e3. auto.
Qed.

(** X15. Whenever the second handler answers with status 200, the reply
    holds the request's [chat_history] followed by the human turn and by
    the response of the second normalizer, which is also the reply's
    [response]. *)
Theorem second_successful_turn_appends_two (body reply : value) :
  In (Respond 200 reply) (fst (V2.query_handler env body)) ->
  exists (input response : value) (chat_history formatted : list value)
         (raw : jsstring),
    Get body "input" = Ok input
    /\ Get body "chat_history" = Ok (JArray chat_history)
    /\ agent_setup env = Ok agentExecutor
    /\ V2.formatConversationHistory env chat_history = Ok formatted
    /\ agent_reply env agentExecutor input formatted = Ok raw
    /\ V2.parseOutput raw = Ok response
    /\ reply = turn_reply response
                 (chat_history ++ [human_turn input; response]).
Proof.
  rewrite second_query_handler_cases.
  destruct (Get body "input") as [input|]; [|intros []].
  destruct (Get body "chat_history") as [chat_history|]; [|intros []].
  destruct (negb (ToBoolean input) || negb (isArray chat_history)) eqn:Hvalid.
  { intros [H | []]. discriminate H. }
  destruct (passes_is_valid _ _ Hvalid) as [_ [entries ->]].
  cbn [elements].
  destruct (agent_setup env) as [[]|] eqn:Hsetup;
    [|intros [H | [H | []]]; discriminate H].
  destruct (V2.formatConversationHistory env entries)
    as [formatted|] eqn:Hformat;
    [|intros [H | [H | []]]; discriminate H].
  destruct (agent_reply env agentExecutor input formatted)
    as [raw|] eqn:Hreply;
    [|intros [H | [H | [H | []]]]; discriminate H].
  destruct (V2.parseOutput raw) as [response|] eqn:Hresponse;
    [|intros [H | [H | [H | []]]]; discriminate H].
  destruct (res_json_stringify env _);
    [|intros [H | [H | [H | []]]]; discriminate H].
  intros [H | [H | [H | []]]]; try discriminate H.
  injection H as <-.
  exists input, response, entries, formatted, raw.
  repeat split; assumption.
Qed.

(** X16. The two handlers differ only through the set-up and the
    normalizer: when the set-up succeeds and the two normalizers agree on
    every text the agent may answer, the two handlers make the same calls
    and give the same response on every request. *)
Theorem handlers_agree_when_normalizers_agree (body : value) :
  agent_setup env = Ok agentExecutor ->
  (forall input formatted raw,
      agent_reply env agentExecutor input formatted = Ok raw ->
      V2.parseOutput raw = V1.parseOutput raw) ->
  V2.query_handler env body = V1.query_handler env body.
Proof.
  intros Hsetup Hagree.
  rewrite second_query_handler_cases, query_handler_cases, Hsetup.
  destruct (Get body "input") as [input|]; [|reflexivity].
  destruct (Get body "chat_history") as [chat_history|]; [|reflexivity].
  destruct (negb (ToBoolean input) || negb (isArray chat_history));
    [reflexivity|].
  rewrite formatConversationHistory_versions_agree.
  destruct (V1.formatConversationHistory env (elements chat_history))
    as [formatted|]; [|reflexivity].
  destruct (agent_reply env agentExecutor input formatted) as [raw|] eqn:Hr;
    [|reflexivity].
  rewrite (Hagree _ _ _ Hr). reflexivity.
Qed.

End HandlerProperties.

Lemma agent_invoked_only_after_setup_witness :
  exists (chat_history : list value) (rest : list event),
    Get sample_body "input" = Ok (JString (str "Hello"))
    /\ ToBoolean (JString (str "Hello")) = true
    /\ Get sample_body "chat_history" = Ok (JArray chat_history)
    /\ agent_setup failing_reply_env = Ok agentExecutor
    /\ V1.formatConversationHistory failing_reply_env chat_history = Ok []
    /\ fst (V1.query_handler failing_reply_env sample_body)
       = InitializeAgent :: Invoke (JString (str "Hello")) [] :: rest.
Proof.
  apply (agent_invoked_only_after_setup failing_reply_env sample_body
           (JString (str "Hello")) []).
  vm_compute. right. left. reflexivity.
Defined.


Lemma second_handler_processing_error_iff_witness :
  In (Respond 500 processing_error)
     (fst (V2.query_handler rejecting_setup_env sample_body)).
Proof.
  apply (second_handler_processing_error_iff rejecting_setup_env sample_body
           (JString (str "Hello")) []).
  - vm_compute. reflexivity.
  - reflexivity.
  - vm_compute. reflexivity.
  - left. eexists. reflexivity.
Defined.

Lemma first_handler_processing_error_iff_witness :
  In (Respond 500 processing_error)
     (fst (V1.query_handler overflowing_env sample_body)).
Proof.
  apply (first_handler_processing_error_iff overflowing_env sample_body
           (JString (str "Hello")) []).
  - vm_compute. reflexivity.
  - reflexivity.
  - vm_compute. reflexivity.
  - split; [reflexivity|]. right. right.
    exists [], example_comparison, example_comparison_value, RangeError.
    repeat split; vm_compute; reflexivity.
Defined.

Lemma second_successful_turn_appends_two_witness :
  exists (input response : value) (chat_history formatted : list value)
         (raw : jsstring),
    Get sample_body_with_history "input" = Ok input
    /\ Get sample_body_with_history "chat_history" = Ok (JArray chat_history)
    /\ agent_setup sample_env = Ok agentExecutor
    /\ V2.formatConversationHistory sample_env chat_history = Ok formatted
    /\ agent_reply sample_env agentExecutor input formatted = Ok raw
    /\ V2.parseOutput raw = Ok response
    /\ sample_reply
       = turn_reply response (chat_history ++ [human_turn input; response]).
Proof.
  apply (second_successful_turn_appends_two sample_env
           sample_body_with_history sample_reply).
  vm_compute. right. right. left. reflexivity.
Defined.

Lemma handlers_agree_when_normalizers_agree_witness :
  V2.query_handler sample_env sample_body_with_history
  = V1.query_handler sample_env sample_body_with_history.
Proof.
  apply (handlers_agree_when_normalizers_agree sample_env
           sample_body_with_history).
  - reflexivity.
  - intros input formatted raw H. injection H as <-.
    vm_compute. reflexivity.
Defined.
